(** * archicad-mcp: the sandboxed script execution engine

    A shallow embedding of [archicad_mcp/config.py] (the path policy) and
    [archicad_mcp/scripting/executor.py] (the script executor), with the
    properties of the specification stated over it; and of what the
    executor calls and is called by: [scripting/api.py], [core/errors.py],
    [core/connection.py], [core/manager.py] and the [execute_script] tool
    of [server.py], with properties read off that code.

    Python text is modelled by [string] (8-bit characters, the ASCII range of
    [str]); Python integers by [Z]; lists by [list].  What the source obtains
    from its host (the platform name, the home and temporary directories,
    path resolution, the standard library's [fnmatch], the Python compiler,
    the behaviour of a compiled script and [asyncio.wait_for]) is a record
    the definitions take as an argument; so are the answers of the HTTP
    session.  JSON values are the values [json] decodes to, floats
    included.  An exception that leaves a function is an outcome of its
    own, also when it is raised by a call an [except] clause makes. *)

From Stdlib Require Import String Ascii List ZArith Lia Bool.
From Stdlib Require Import Numbers.DecimalString.
From Stdlib Require PrimFloat.
Import ListNotations.

Local Open Scope string_scope.
Local Open Scope Z_scope.

(* ================================================================== *)
(** * The [str] methods the source calls *)
(* ================================================================== *)

Module PyStr.

(** ["\n"] *)
Definition nl : string := String "010"%char EmptyString.

(** ["\\"], one backslash *)
Definition backslash : string := String "092"%char EmptyString.

(** [bool(s)]: a string is truthy when it is not empty. *)
Definition truthy (s : string) : bool :=
  match s with
  | EmptyString => false
  | String _ _ => true
  end.

(** [s.startswith(p)] *)
Definition startswith (p s : string) : bool := String.prefix p s.

(** [s[n:]] for [0 <= n]. *)
Fixpoint drop (n : nat) (s : string) : string :=
  match n, s with
  | O, _ => s
  | S _, EmptyString => EmptyString
  | S k, String _ r => drop k r
  end.

(** [sub in s] *)
Fixpoint contains (sub s : string) : bool :=
  String.prefix sub s
  || match s with
     | EmptyString => false
     | String _ r => contains sub r
     end.

(** [s.replace(old, new)] for a non-empty [old]: every occurrence, left to
    right, without overlap.  [skip] counts the characters of a matched
    occurrence still to be passed over. *)
Fixpoint replace_from (old new : string) (skip : nat) (s : string) : string :=
  match s with
  | EmptyString => EmptyString
  | String c r =>
      match skip with
      | S k => replace_from old new k r
      | O =>
          if String.prefix old s
          then new ++ replace_from old new (Nat.pred (String.length old)) r
          else String c (replace_from old new O r)
      end
  end.

Definition replace (old new s : string) : string := replace_from old new O s.

(** [s.lower()] on ASCII letters. *)
Definition lower_char (c : ascii) : ascii :=
  let n := nat_of_ascii c in
  if (Nat.leb 65 n && Nat.leb n 90)%bool then ascii_of_nat (n + 32) else c.

Fixpoint lower (s : string) : string :=
  match s with
  | EmptyString => EmptyString
  | String c r => String (lower_char c) (lower r)
  end.

(** The characters [str.strip()] removes: TAB, LF, VT, FF, CR, FS, GS, RS,
    US and the space. *)
Definition is_space (c : ascii) : bool :=
  let n := nat_of_ascii c in
  ((Nat.leb 9 n && Nat.leb n 13) || (Nat.leb 28 n && Nat.leb n 32))%bool.

Fixpoint lstrip (s : string) : string :=
  match s with
  | EmptyString => EmptyString
  | String c r => if is_space c then lstrip r else s
  end.

Fixpoint rstrip (s : string) : string :=
  match s with
  | EmptyString => EmptyString
  | String c r =>
      let r' := rstrip r in
      if (is_space c && negb (truthy r'))%bool then EmptyString else String c r'
  end.

(** [s.strip()] *)
Definition strip (s : string) : string := rstrip (lstrip s).

(** [s.split(sep)] for a one-character separator: never the empty list. *)
Fixpoint split (sep : ascii) (s : string) : list string :=
  match s with
  | EmptyString => [EmptyString]
  | String c r =>
      if Ascii.eqb c sep then EmptyString :: split sep r
      else match split sep r with
           | [] => [String c EmptyString]
           | w :: ws => String c w :: ws
           end
  end.

(** [s.split("\n")] *)
Definition split_lines (s : string) : list string := split "010"%char s.

(** [sep.join(parts)] *)
Fixpoint join (sep : string) (parts : list string) : string :=
  match parts with
  | [] => EmptyString
  | [p] => p
  | p :: ps => p ++ sep ++ join sep ps
  end.

(** [c not in s] *)
Fixpoint free_of (c : ascii) (s : string) : bool :=
  match s with
  | EmptyString => true
  | String d r => (negb (Ascii.eqb d c) && free_of c r)%bool
  end.

(** [str(n)] for an integer. *)
Definition of_Z (n : Z) : string := NilZero.string_of_int (Z.to_int n).

(** [len(l)] *)
Definition len {A : Type} (l : list A) : Z := Z.of_nat (List.length l).

End PyStr.

(* ================================================================== *)
(** * config.py: the path policy *)
(* ================================================================== *)

Module Config.
Import PyStr.

(** What [config.py] reads from the process it runs in. *)
Record Host := {
  platform : string;                   (* sys.platform *)
  home : string;                       (* str(Path.home()) *)
  tempdir : string;                    (* tempfile.gettempdir() *)
  resolve : string -> string;          (* str(Path(p).expanduser().resolve()) *)
  fnmatch : string -> string -> bool   (* fnmatch.fnmatch(name, pat) *)
}.

Definition DEFAULT_BLOCKED_WINDOWS : list string :=
  ["C:/Windows/*"; "C:/Program Files/*"; "C:/Program Files (x86)/*"].

Definition DEFAULT_BLOCKED_MACOS : list string :=
  ["/System/*"; "/Library/*"; "/Applications/*"; "/usr/*"; "/bin/*";
   "/sbin/*"; "/etc/*"; "/var/*"].

Definition DEFAULT_BLOCKED_LINUX : list string :=
  ["/usr/*"; "/bin/*"; "/sbin/*"; "/etc/*"; "/var/*"].

Definition DEFAULT_ALLOWED_WRITE : list string :=
  ["~/Desktop/*"; "~/Documents/*"; "${TEMP}/*"].

Record SecurityConfig := {
  mode : string;
  blocked_patterns : list string;
  allowed_write_patterns : list string
}.

Section WithHost.
Variable h : Host.

Definition is_win32 : bool := String.eqb (platform h) "win32".

Definition get_default_blocked : list string :=
  if is_win32 then DEFAULT_BLOCKED_WINDOWS
  else if String.eqb (platform h) "darwin" then DEFAULT_BLOCKED_MACOS
  else DEFAULT_BLOCKED_LINUX.

Definition expand_pattern (pattern : string) : string :=
  let pattern :=
    if startswith "~" pattern then home h ++ drop 1 pattern else pattern in
  let pattern :=
    if contains "${TEMP}" pattern
    then replace "${TEMP}" (tempdir h) pattern else pattern in
  replace backslash "/" pattern.

Definition normalize_for_match (path : string) : string :=
  let resolved := resolve h path in
  let normalized := replace backslash "/" resolved in
  if is_win32 then lower normalized else normalized.

Definition matches_pattern (path pattern : string) : bool :=
  let norm_path := normalize_for_match path in
  let norm_pattern := expand_pattern pattern in
  let norm_pattern := if is_win32 then lower norm_pattern else norm_pattern in
  fnmatch h norm_path norm_pattern.

(** [for pattern in patterns: if matches_pattern(path, pattern): return ...]:
    whether the loop reaches its [return]. *)
Fixpoint any_pattern_matches (path : string) (patterns : list string) : bool :=
  match patterns with
  | [] => false
  | pattern :: rest =>
      if matches_pattern path pattern then true
      else any_pattern_matches path rest
  end.

Definition blocked_expanded (cfg : SecurityConfig) : list string :=
  map expand_pattern (blocked_patterns cfg).

Definition allowed_write_expanded (cfg : SecurityConfig) : list string :=
  map expand_pattern (allowed_write_patterns cfg).

Definition is_path_blocked (cfg : SecurityConfig) (path : string)
           (for_write : bool) : bool :=
  if any_pattern_matches path (blocked_patterns cfg) then true
  else if (for_write && String.eqb (mode cfg) "sandboxed")%bool then
    if any_pattern_matches path (allowed_write_patterns cfg) then false
    else true
  else false.

(** [SecurityConfig()] *)
Definition default_config : SecurityConfig :=
  {| mode := "unrestricted";
     blocked_patterns := get_default_blocked;
     allowed_write_patterns := DEFAULT_ALLOWED_WRITE |}.

End WithHost.

(** ** A host to evaluate on

    A Linux process of user [user]; paths are resolved without touching a
    file system (a leading [~] is expanded, a relative path is put under
    the working directory [/work]), and [glob] is [fnmatch] on the patterns
    made of literal characters, [*] and [?]. *)

Fixpoint glob (pat : string) : string -> bool :=
  match pat with
  | EmptyString => fun s => negb (truthy s)
  | String p pat' =>
      if Ascii.eqb p "*"%char then
        fix star (s : string) : bool :=
          (glob pat' s
           || match s with
              | EmptyString => false
              | String _ s' => star s'
              end)%bool
      else if Ascii.eqb p "?"%char then
        fun s => match s with
                 | EmptyString => false
                 | String _ s' => glob pat' s'
                 end
      else
        fun s => match s with
                 | EmptyString => false
                 | String c s' => (Ascii.eqb c p && glob pat' s')%bool
                 end
  end.

Definition linux_host : Host :=
  {| platform := "linux";
     home := "/home/user";
     tempdir := "/tmp";
     resolve := fun p =>
       if startswith "~" p then "/home/user" ++ drop 1 p
       else if startswith "/" p then p
       else "/work/" ++ p;
     fnmatch := fun name pat => glob pat name |}.

Definition sandboxed_desktop : SecurityConfig :=
  {| mode := "sandboxed";
     blocked_patterns := DEFAULT_BLOCKED_LINUX;
     allowed_write_patterns := ["~/Desktop/*"] |}.

(** The configuration with another allow-list. *)
Definition with_allowed_write (cfg : SecurityConfig) (allowed : list string)
  : SecurityConfig :=
  {| mode := mode cfg;
     blocked_patterns := blocked_patterns cfg;
     allowed_write_patterns := allowed |}.

(** A sandboxed policy whose allow-list covers [/etc]. *)
Definition etc_allowed : SecurityConfig :=
  {| mode := "sandboxed";
     blocked_patterns := DEFAULT_BLOCKED_LINUX;
     allowed_write_patterns := ["/etc/*"] |}.

End Config.

(* ================================================================== *)
(** * models.py and scripting/executor.py: the script executor *)
(* ================================================================== *)

Module Executor.
Import PyStr Config.

(** ** Values a script leaves in [result] *)

#[local] Set Warnings "-register-all".

Inductive PyVal : Type :=
| PyNone
| PyBool (b : bool)
| PyInt (n : Z)
| PyStr (s : string)
| PyList (items : list PyVal)
| PyTuple (items : list PyVal)
| PyDict (entries : list (string * PyVal)).

(** models.py: [ScriptResult]; [None] in [result] is [PyNone]. *)
Record ScriptResult := {
  success : bool;
  result : PyVal;
  stdout : string;
  error : option string;
  execution_time_ms : Z
}.

(** ** Exceptions and tracebacks *)

(** A [traceback.FrameSummary], as far as [_format_error] reads it. *)
Record Frame := {
  filename : string;
  lineno : option Z
}.

(** Which [except] clauses of [run] an exception matches. *)
Inductive ExcClass : Type :=
| SyntaxErrorClass       (* isinstance(e, SyntaxError) *)
| TimeoutErrorClass      (* isinstance(e, TimeoutError) *)
| OtherExceptionClass    (* any other instance of Exception *)
| BaseExceptionOnly.     (* SystemExit, KeyboardInterrupt, CancelledError, ... *)

Record PyExc := {
  exc_class : ExcClass;
  type_name : string;          (* type(exc).__name__ *)
  exc_str : string;            (* str(exc) *)
  exc_tb : list Frame;         (* traceback.extract_tb(exc.__traceback__) *)
  syn_lineno : option Z;       (* e.lineno of a SyntaxError *)
  syn_msg : string             (* e.msg of a SyntaxError *)
}.

(** ** Constants *)

Definition ALLOWED_MODULES : list string :=
  ["json"; "csv"; "math"; "re"; "datetime"; "pathlib"; "itertools";
   "functools"; "collections"; "statistics"; "copy"; "io"; "Path";
   "openpyxl"].

Definition MAX_RESULT_ITEMS : Z := 500.
Definition SAMPLE_SIZE : Z := 50.

(** [frozenset("wxa+")] *)
Definition WRITE_MODE_CHARS : list ascii := ["w"; "x"; "a"; "+"]%char.

(** ** File opening *)

Definition char_in (c : ascii) (cs : list ascii) : bool :=
  existsb (Ascii.eqb c) cs.

(** [set(mode) & WRITE_MODE_CHARS], as the list of the characters of
    [mode] that are write-mode characters. *)
Definition mode_write_chars (mode : string) : list ascii :=
  filter (fun c => char_in c WRITE_MODE_CHARS) (list_ascii_of_string mode).

Definition _is_write_mode (mode : string) : bool :=
  match mode_write_chars mode with
  | [] => false
  | _ :: _ => true
  end.

(** The [file] argument of [open]: the hint of [safe_open] is
    [str | Path], and nothing checks it, so a script can also pass what
    the built-in [open] accepts, a [bytes] path or a file descriptor. *)
Inductive FileArg : Type :=
| StrFile (path : string)        (* a str *)
| PathFile (path : string)       (* a pathlib.Path whose str() is [path] *)
| BytesFile (path : string)      (* a bytes path *)
| FdFile (fd : Z).               (* an integer file descriptor *)

Definition hex_digit (n : nat) : ascii :=
  nth n (list_ascii_of_string "0123456789abcdef") "0"%char.

(** One byte in [repr(b)], between the quotes [quote]. *)
Definition escape_byte (quote c : ascii) : string :=
  let n := nat_of_ascii c in
  if (Ascii.eqb c quote || Ascii.eqb c "092")%bool
  then String "092" (String c EmptyString)
  else if Ascii.eqb c "009" then backslash ++ "t"
  else if Ascii.eqb c "010" then backslash ++ "n"
  else if Ascii.eqb c "013" then backslash ++ "r"
  else if (Nat.ltb n 32 || Nat.leb 127 n)%bool
  then backslash ++ "x"
       ++ String (hex_digit (Nat.div n 16))
                 (String (hex_digit (Nat.modulo n 16)) EmptyString)
  else String c EmptyString.

Fixpoint escape_bytes (quote : ascii) (b : string) : string :=
  match b with
  | EmptyString => EmptyString
  | String c r => escape_byte quote c ++ escape_bytes quote r
  end.

(** [repr(b)] of a [bytes] object, which is also its [str(b)]: single
    quotes, unless the bytes hold a single quote and no double quote. *)
Definition bytes_repr (b : string) : string :=
  let quote :=
    if (negb (free_of "'"%char b) && free_of "034"%char b)%bool
    then "034"%char else "'"%char in
  "b" ++ String quote (escape_bytes quote b ++ String quote EmptyString).

(** [str(file)] *)
Definition file_str (file : FileArg) : string :=
  match file with
  | StrFile path => path
  | PathFile path => path
  | BytesFile path => bytes_repr path
  | FdFile fd => of_Z fd
  end.

(** What [safe_open] does: raise [PermissionError] with a message, or hand
    [file] and [mode] to the built-in [open]. *)
Inductive Opened : Type :=
| PermissionError (message : string)
| BuiltinOpen (file : FileArg) (mode : string).

Definition safe_open (h : Host) (config : SecurityConfig)
           (file : FileArg) (mode : string) : Opened :=
  let path_str := file_str file in
  let is_write := _is_write_mode mode in
  if is_path_blocked h config path_str is_write then
    if (is_write && String.eqb (Config.mode config) "sandboxed")%bool then
      PermissionError
        ("Write access denied: '" ++ path_str
         ++ "' is not in allowed write paths. Allowed: "
         ++ join ", " (allowed_write_expanded h config))
    else
      PermissionError
        ("Access denied: '" ++ path_str
         ++ "' is in a blocked directory. Blocked: "
         ++ join ", " (blocked_expanded h config))
  else BuiltinOpen file mode.

(** ** The namespace a script runs in *)

Record ArchicadConnection := {
  port : Z
}.

Inductive Builtins : Type :=
| FullBuiltins        (* builtins.__dict__ *)
| ScriptBuiltins.     (* SCRIPT_BUILTINS *)

Record Namespace := {
  ns_archicad : ArchicadConnection;
  ns_port : Z;
  ns_result : PyVal;
  ns_open : FileArg -> string -> Opened;
  ns_modules : list string;
  ns_builtins : Builtins
}.

Definition _build_namespace (h : Host) (api : ArchicadConnection)
           (port : Z) (config : SecurityConfig) : Namespace :=
  {| ns_archicad := api;
     ns_port := port;
     ns_result := PyNone;
     ns_open := safe_open h config;
     ns_modules := ALLOWED_MODULES;
     ns_builtins :=
       if String.eqb (Config.mode config) "unrestricted"
       then FullBuiltins else ScriptBuiltins |}.

(** ** Wrapping, result processing, error formatting *)

Definition indent_line (line : string) : string :=
  if truthy (strip line) then "    " ++ line else line.

Definition _wrap_script (script : string) : string :=
  let indented := join nl (map indent_line (split_lines script)) in
  nl ++ "async def __script_main__():" ++ nl
  ++ "    result = None" ++ nl
  ++ indented ++ nl
  ++ "    globals()['result'] = result" ++ nl
  ++ nl
  ++ "__script_result__ = __script_main__()" ++ nl.

(** [result[:n]] *)
Definition take {A : Type} (n : Z) (l : list A) : list A :=
  firstn (Z.to_nat n) l.

Definition _process_result (result : PyVal) : PyVal :=
  match result with
  | PyList items =>
      if MAX_RESULT_ITEMS <? len items then
        PyDict
          [("total", PyInt (len items));
           ("sample", PyList (take SAMPLE_SIZE items));
           ("truncated", PyBool true);
           ("warning",
            PyStr ("Result list has " ++ of_Z (len items) ++ " items. "
                   ++ "Showing first " ++ of_Z SAMPLE_SIZE
                   ++ ". Process data in script to return smaller results."))]
      else result
  | _ => result
  end.

(** The loop of [_format_error] over [reversed(tb)]: the first frame of
    the file [<script>] that has a line number gives [lineno - 3]. *)
Fixpoint find_script_line (frames : list Frame) : option Z :=
  match frames with
  | [] => None
  | frame :: rest =>
      match lineno frame with
      | Some l =>
          if String.eqb (filename frame) "<script>" then Some (l - 3)
          else find_script_line rest
      | None => find_script_line rest
      end
  end.

Definition _format_error (exc : PyExc) (script : string) : string :=
  let tb := exc_tb exc in
  let script_line := find_script_line (rev tb) in
  let error_type := type_name exc in
  let error_msg := exc_str exc in
  match script_line with
  | Some n =>
      if (negb (n =? 0) && (0 <? n))%bool then
        let lines := split_lines script in
        if ((0 <? n) && (n <=? len lines))%bool then
          let offending_line :=
            strip (nth (Z.to_nat (n - 1)) lines EmptyString) in
          "Line " ++ of_Z n ++ ": " ++ error_type ++ ": " ++ error_msg
          ++ nl ++ "  > " ++ offending_line
        else
          "Line " ++ of_Z n ++ ": " ++ error_type ++ ": " ++ error_msg
      else error_type ++ ": " ++ error_msg
  | None => error_type ++ ": " ++ error_msg
  end.

(** ** The captured output *)

(** [stdout_capture], the [io.StringIO] the [print] of the namespace
    writes to, as [run] finds it when it builds a result: holding the text
    written so far, or closed.  A script reaches the buffer through its
    [print], whose closure holds it
    ([print.__closure__[0].cell_contents]). *)
Inductive Buffer : Type :=
| Holds (text : string)
| ClosedFile.

Definition executor_py : string := "archicad_mcp/scripting/executor.py".

(** A traceback frame at a line of [executor.py]. *)
Definition in_run (line : Z) : Frame :=
  {| filename := executor_py; lineno := Some line |}.

(** The [ValueError] of [getvalue()] on a closed buffer, raised at a line
    of [run]. *)
Definition closed_file_error (line : Z) : PyExc :=
  {| exc_class := OtherExceptionClass;
     type_name := "ValueError";
     exc_str := "I/O operation on closed file";
     exc_tb := [in_run line];
     syn_lineno := None;
     syn_msg := EmptyString |}.

(** [stdout_capture.getvalue()] at a line of [run]. *)
Definition getvalue (line : Z) (buf : Buffer) : PyExc + string :=
  match buf with
  | Holds text => inr text
  | ClosedFile => inl (closed_file_error line)
  end.

(** ** The interpreter and the event loop *)

(** What a coroutine does when it is driven to its end: it writes to the
    captured output, computes without suspending and suspends in awaits,
    each for some milliseconds, and then returns (leaving a value in
    [result]), raises, awaits something that never completes, or computes
    forever without suspending. *)
Inductive Event : Type :=
| Emit (text : string)
| Work (ms : Z)
| Await (ms : Z).

(** [Raise e] is the raise of an exception the handlers of [run] can
    format ([str(e)] returns [exc_str e]); [RaiseUnprintable e inner] is
    the raise of an exception whose formatting raises [inner], as that of
    an exception whose [__str__] raises.  [CloseOutput next] closes the
    captured-output buffer and then ends as [next]; every other ending
    leaves the buffer as it is. *)
Inductive Ending : Type :=
| Return (value : PyVal)
| Raise (e : PyExc)
| Hang
| Spin
| RaiseUnprintable (e inner : PyExc)
| CloseOutput (next : Ending).

Record Coroutine := {
  events : list Event;
  ending : Ending
}.

(** What awaiting a coroutine comes to, with the captured-output buffer
    and the milliseconds elapsed: the coroutine returned, it raised
    ([fmt_error] is what formatting the exception in a handler of [run]
    raises, if that raises), [asyncio.wait_for] raised [TimeoutError], or
    nothing comes back. *)
Inductive Awaited : Type :=
| Done (buf : Buffer) (clock : Z) (value : PyVal)
| Raised (buf : Buffer) (clock : Z) (e : PyExc) (fmt_error : option PyExc)
| TimedOut (buf : Buffer) (clock : Z)
| Never.

(** The Python the executor runs on: [compile(src, "<script>", "exec")];
    [exec(code, namespace)] followed by the lookup of
    [__script_result__], with what has been printed by then; and
    [await asyncio.wait_for(coro, timeout=t)] with that text in the buffer.
    How the event loop shares the time with the coroutine, when it cancels
    it and what the coroutine does when it is cancelled (it may carry on,
    print, return or raise) are the interpreter's.

    [exec] runs more than the two statements of the wrapper when the
    script holds a bare carriage return: the compiler ends a line there,
    and what follows is at the module level of the wrapped text.  For an
    [exec] that raises, [exec_mishap] tells whether it has closed the
    captured-output buffer, and what formatting its exception raises, if
    that raises. *)
Record Interpreter := {
  compile_error : string -> option PyExc;
  exec_module : string -> Namespace -> string * (PyExc + Coroutine);
  exec_mishap : string -> Namespace -> bool * option PyExc;
  wait_for : Coroutine -> Z -> string -> Awaited
}.

(** The ending of a coroutine that is driven to its end. *)
Fixpoint finish (deadline : option Z) (fin : Ending) (buf : Buffer)
         (clock : Z) : Awaited :=
  match fin with
  | Return v => Done buf clock v
  | Raise e => Raised buf clock e None
  | Hang =>
      match deadline with
      | Some d => TimedOut buf (Z.max clock d)
      | None => Never
      end
  | Spin => Never
  | RaiseUnprintable e inner => Raised buf clock e (Some inner)
  | CloseOutput next => finish deadline next ClosedFile clock
  end.

(** Driving a coroutine that does not intercept its cancellation.  The
    scheduling is cooperative: a deadline takes effect only while the
    coroutine is suspended, when the awaited operation would complete
    after it. *)
Fixpoint drive (deadline : option Z) (evs : list Event) (fin : Ending)
         (out : string) (clock : Z) : Awaited :=
  match evs with
  | [] => finish deadline fin (Holds out) clock
  | Emit text :: rest => drive deadline rest fin (out ++ text) clock
  | Work ms :: rest => drive deadline rest fin out (clock + ms)
  | Await ms :: rest =>
      match deadline with
      | Some d =>
          if d <? clock + ms then TimedOut (Holds out) (Z.max clock d)
          else drive deadline rest fin out (clock + ms)
      | None => drive deadline rest fin out (clock + ms)
      end
  end.

(** [await coro] *)
Definition await (coro : Coroutine) (out : string) : Awaited :=
  drive None (events coro) (ending coro) out 0.

(** [asyncio.wait_for] of CPython on a coroutine that does not intercept
    its cancellation: with a timeout of zero or less the coroutine is
    cancelled before its first step, otherwise it is driven against the
    deadline. *)
Definition cooperative_wait_for (coro : Coroutine) (timeout_seconds : Z)
           (out : string) : Awaited :=
  if timeout_seconds <=? 0 then TimedOut (Holds out) 0
  else drive (Some (1000 * timeout_seconds)) (events coro) (ending coro) out 0.

(** ** ScriptExecutor.run *)

Inductive RunOutcome : Type :=
| Returns (r : ScriptResult)
| Propagates (e : PyExc)
| NoReturn.

(** [f"{e.lineno}"] *)
Definition format_lineno (l : option Z) : string :=
  match l with
  | Some n => of_Z n
  | None => "None"
  end.

Definition timed_out_result (timeout_seconds : Z) (out : string)
           (clock : Z) : ScriptResult :=
  {| success := false;
     result := PyNone;
     stdout := out;
     error := Some ("Script timed out after " ++ of_Z timeout_seconds
                    ++ " seconds");
     execution_time_ms := clock |}.

(** The two outer handlers of [run], [except SyntaxError] (l.271-278) and
    [except Exception] (l.280-290), for an exception [e] raised inside the
    [try].  The handlers are not guarded themselves: [except SyntaxError]
    reads the buffer and then formats [e.lineno] and [e.msg],
    [except Exception] formats [e] in [_format_error] ([str(e)], l.364)
    and then reads the buffer, and what these calls raise leaves [run]. *)
Definition handle_exception (script : string) (buf : Buffer) (clock : Z)
           (e : PyExc) (fmt_error : option PyExc) : RunOutcome :=
  match exc_class e with
  | SyntaxErrorClass =>
      match getvalue 275 buf with
      | inr out =>
          match fmt_error with
          | Some inner => Propagates inner
          | None =>
              Returns
                {| success := false;
                   result := PyNone;
                   stdout := out;
                   error := Some ("Syntax error at line "
                                  ++ format_lineno (syn_lineno e) ++ ": "
                                  ++ syn_msg e);
                   execution_time_ms := clock |}
          end
      | inl raised => Propagates raised
      end
  | TimeoutErrorClass | OtherExceptionClass =>
      match fmt_error with
      | Some inner => Propagates inner
      | None =>
          match getvalue 287 buf with
          | inr out =>
              Returns
                {| success := false;
                   result := PyNone;
                   stdout := out;
                   error := Some (_format_error e script);
                   execution_time_ms := clock |}
          | inl raised => Propagates raised
          end
      end
  | BaseExceptionOnly => Propagates e
  end.

Definition success_result (value : PyVal) (out : string) (clock : Z)
  : ScriptResult :=
  {| success := true;
     result := _process_result value;
     stdout := out;
     error := None;
     execution_time_ms := clock |}.

(** The return of the [except TimeoutError] clause (l.248-255).  The
    clause is inside the outer [try]: what its [getvalue()] raises goes to
    the outer handlers. *)
Definition timed_out (script : string) (timeout_seconds : Z) (buf : Buffer)
           (clock : Z) : RunOutcome :=
  match getvalue 252 buf with
  | inr out => Returns (timed_out_result timeout_seconds out clock)
  | inl raised => handle_exception script buf clock raised None
  end.

(** The return of a completed script (l.259-269), inside the [try] as
    well. *)
Definition completed (script : string) (value : PyVal) (buf : Buffer)
           (clock : Z) : RunOutcome :=
  match getvalue 266 buf with
  | inr out => Returns (success_result value out clock)
  | inl raised => handle_exception script buf clock raised None
  end.

(** [if config is None: config = SecurityConfig()] *)
Definition config_or_default (h : Host) (config : option SecurityConfig)
  : SecurityConfig :=
  match config with
  | None => default_config h
  | Some c => c
  end.

Definition run (h : Host) (py : Interpreter) (script : string)
           (connection : ArchicadConnection) (timeout_seconds : option Z)
           (config : option SecurityConfig) : RunOutcome :=
  let config := config_or_default h config in
  let api := connection in
  let namespace := _build_namespace h api (port connection) config in
  let wrapped_script := _wrap_script script in
  match compile_error py wrapped_script with
  | Some e => handle_exception script (Holds EmptyString) 0 e None
  | None =>
      match exec_module py wrapped_script namespace with
      | (out, inl e) =>
          let (closed, fmt_error) := exec_mishap py wrapped_script namespace in
          handle_exception script (if closed then ClosedFile else Holds out)
                           0 e fmt_error
      | (out, inr coro) =>
          match timeout_seconds with
          | Some t =>
              match wait_for py coro t out with
              | TimedOut buf clock => timed_out script t buf clock
              | Raised buf clock e fmt_error =>
                  match exc_class e with
                  | TimeoutErrorClass => timed_out script t buf clock
                  | _ => handle_exception script buf clock e fmt_error
                  end
              | Done buf clock v => completed script v buf clock
              | Never => NoReturn
              end
          | None =>
              match await coro out with
              | Done buf clock v => completed script v buf clock
              | Raised buf clock e fmt_error =>
                  handle_exception script buf clock e fmt_error
              | TimedOut _ _ => NoReturn
              | Never => NoReturn
              end
          end
      end
  end.

(** ** Vocabulary of the properties *)

(** The text a run of events writes to the captured output. *)
Fixpoint printed (evs : list Event) : string :=
  match evs with
  | [] => EmptyString
  | Emit text :: rest => text ++ printed rest
  | Work _ :: rest => printed rest
  | Await _ :: rest => printed rest
  end.




(** A frame [_format_error] accepts as a frame of the script. *)
Definition is_script_frame (f : Frame) : bool :=
  match lineno f with
  | Some _ => String.eqb (filename f) "<script>"
  | None => false
  end.

(** Python sequences among the values: lists, tuples and strings. *)
Definition is_sequence (v : PyVal) : bool :=
  match v with
  | PyList _ | PyTuple _ | PyStr _ => true
  | _ => false
  end.

(** [len(v)] of a sequence. *)
Definition sequence_length (v : PyVal) : Z :=
  match v with
  | PyList items | PyTuple items => len items
  | PyStr s => Z.of_nat (String.length s)
  | _ => 0
  end.

Definition is_list (v : PyVal) : bool :=
  match v with
  | PyList _ => true
  | _ => false
  end.

(** The invariant of a [ScriptResult]. *)
Definition result_invariant (r : ScriptResult) : Prop :=
  (success r = false <-> (error r <> None /\ result r = PyNone))
  /\ (success r = true -> error r = None)
  /\ (success r = false -> error r <> None /\ result r = PyNone).

End Executor.

(* ================================================================== *)
(** * Sample scripts

    A handful of scripts and what CPython (3.11 or later) does with their
    wrapped text in the default, unrestricted namespace: the exception
    [compile] raises, or the behaviour of the coroutine.  Tracebacks start
    in the frame of [run]. *)
(* ================================================================== *)

Module Samples.
Import PyStr Config Executor.

Definition in_script (line : Z) : Frame :=
  {| filename := "<script>"; lineno := Some line |}.

Definition raised (cls : ExcClass) (name message : string)
           (tb : list Frame) : PyExc :=
  {| exc_class := cls; type_name := name; exc_str := message;
     exc_tb := tb; syn_lineno := None; syn_msg := EmptyString |}.

Record Sample := {
  source : string;
  compile_exc : option PyExc;
  coroutine : Coroutine
}.

Definition returns (v : PyVal) : Coroutine :=
  {| events := []; ending := Return v |}.

Definition raises (e : PyExc) : Coroutine :=
  {| events := []; ending := Raise e |}.

(** The script of [test_syntax_error_reports_line]: the colon of line 3
    is missing. *)
Definition script_missing_colon : string :=
  "x = 1" ++ nl ++ "y = 2" ++ nl ++ "if True" ++ nl ++ "    z = 3" ++ nl.

Definition missing_colon_error : PyExc :=
  {| exc_class := SyntaxErrorClass;
     type_name := "SyntaxError";
     exc_str := "expected ':' (<script>, line 6)";
     exc_tb := [in_run 238];
     syn_lineno := Some 6;
     syn_msg := "expected ':'" |}.

(** The script of [test_runtime_error_reports_line]. *)
Definition script_zero_division : string :=
  "x = 1" ++ nl ++ "y = 0" ++ nl ++ "z = x / y" ++ nl ++ "result = z" ++ nl.

Definition zero_division_error : PyExc :=
  raised OtherExceptionClass "ZeroDivisionError" "division by zero"
         [in_run 257; in_script 6].

Definition script_system_exit : string := "raise SystemExit(1)".

Definition system_exit : PyExc :=
  raised BaseExceptionOnly "SystemExit" "1" [in_run 257; in_script 4].

(** A script that compiles and runs a second piece of code under the
    same file name; the innermost frame is line 1 of that piece. *)
Definition script_nested_exec : string :=
  "exec(compile('1/0', '<script>', 'exec'))".

Definition nested_zero_division : PyExc :=
  raised OtherExceptionClass "ZeroDivisionError" "division by zero"
         [in_run 257; in_script 4; in_script 1].

(** A script that raises [TimeoutError] itself. *)
Definition script_own_timeout : string := "raise TimeoutError('backend busy')".

Definition own_timeout_error : PyExc :=
  raised TimeoutErrorClass "TimeoutError" "backend busy"
         [in_run 247; in_script 4].

(** A script that evaluates malformed text: [eval] raises [SyntaxError]
    while the script runs. *)
Definition script_eval_malformed : string := "result = eval('1 +')".

Definition eval_syntax_error : PyExc :=
  {| exc_class := SyntaxErrorClass;
     type_name := "SyntaxError";
     exc_str := "invalid syntax (<string>, line 1)";
     exc_tb := [in_run 257; in_script 4];
     syn_lineno := Some 1;
     syn_msg := "invalid syntax" |}.

Definition script_answer : string := "result = 42".

Definition script_big_list : string := "result = list(range(1000))".

Definition range (n : nat) : list PyVal :=
  map (fun i => PyInt (Z.of_nat i)) (seq 0 n).

Definition script_big_tuple : string := "result = tuple(range(501))".

(** Prints, then sleeps ten seconds. *)
Definition script_slow : string :=
  "import asyncio" ++ nl ++ "print('start')" ++ nl
  ++ "await asyncio.sleep(10)" ++ nl ++ "result = 'done'".

Definition slow_coroutine : Coroutine :=
  {| events := [Emit ("start" ++ nl); Await 10000];
     ending := Return (PyStr "done") |}.

(** A script that closes the buffer its output is captured in. *)
Definition script_close_buffer : string :=
  "print('begin')" ++ nl ++ "print.__closure__[0].cell_contents.close()".

Definition close_buffer_coroutine : Coroutine :=
  {| events := [Emit ("begin" ++ nl)];
     ending := CloseOutput (Return PyNone) |}.

(** A script that raises an exception whose [__str__] raises: the
    [RuntimeError] comes out of [str(exc)] in [_format_error]. *)
Definition script_unprintable : string :=
  "class Mute(Exception):" ++ nl
  ++ "    def __str__(self):" ++ nl
  ++ "        raise RuntimeError('no text')" ++ nl
  ++ "raise Mute()".

Definition mute_error : PyExc :=
  raised OtherExceptionClass "Mute" EmptyString [in_run 257; in_script 7].

Definition no_text_error : PyExc :=
  raised OtherExceptionClass "RuntimeError" "no text"
         [in_run 282; in_run 364; in_script 6].

Definition samples : list Sample :=
  [ {| source := script_missing_colon;
       compile_exc := Some missing_colon_error;
       coroutine := returns PyNone |};
    {| source := script_zero_division;
       compile_exc := None;
       coroutine := raises zero_division_error |};
    {| source := script_system_exit;
       compile_exc := None;
       coroutine := raises system_exit |};
    {| source := script_nested_exec;
       compile_exc := None;
       coroutine := raises nested_zero_division |};
    {| source := script_own_timeout;
       compile_exc := None;
       coroutine := raises own_timeout_error |};
    {| source := script_eval_malformed;
       compile_exc := None;
       coroutine := raises eval_syntax_error |};
    {| source := script_answer;
       compile_exc := None;
       coroutine := returns (PyInt 42) |};
    {| source := script_big_list;
       compile_exc := None;
       coroutine := returns (PyList (range 1000)) |};
    {| source := script_big_tuple;
       compile_exc := None;
       coroutine := returns (PyTuple (range 501)) |};
    {| source := script_slow;
       compile_exc := None;
       coroutine := slow_coroutine |};
    {| source := script_close_buffer;
       compile_exc := None;
       coroutine := close_buffer_coroutine |};
    {| source := script_unprintable;
       compile_exc := None;
       coroutine :=
         {| events := [];
            ending := RaiseUnprintable mute_error no_text_error |} |} ].

Definition sample_of (wrapped : string) : option Sample :=
  find (fun s => String.eqb wrapped (_wrap_script (source s))) samples.

(** Any other text compiles and leaves [result] at [None].  None of the
    samples intercepts its cancellation. *)
Definition python : Interpreter :=
  {| compile_error := fun wrapped =>
       match sample_of wrapped with
       | Some s => compile_exc s
       | None => None
       end;
     exec_module := fun wrapped _ =>
       (EmptyString,
        inr match sample_of wrapped with
            | Some s => coroutine s
            | None => returns PyNone
            end);
     exec_mishap := fun _ _ => (false, None);
     wait_for := cooperative_wait_for |}.

Definition connection : ArchicadConnection := {| port := 19723 |}.

End Samples.

(* ================================================================== *)
(** * config.py: loading the configuration and documenting it *)
(* ================================================================== *)

Module ConfigEnv.
Import PyStr Config.

(** [os.environ] *)
Definition Environ : Type := string -> option string.

(** [os.environ.get(key, default)] *)
Definition environ_get (env : Environ) (key default : string) : string :=
  match env key with
  | Some value => value
  | None => default
  end.

(** [[p.strip() for p in text.split(";") if p.strip()]] *)
Definition stripped_entries (text : string) : list string :=
  map strip (filter (fun p => truthy (strip p)) (split ";"%char text)).

Definition load_config (h : Host) (env : Environ) : SecurityConfig :=
  let mode_str := lower (environ_get env "ARCHICAD_MCP_SECURITY" "unrestricted") in
  let mode := if String.eqb mode_str "sandboxed"
              then "sandboxed" else "unrestricted" in
  let blocked := get_default_blocked h in
  let extra_blocked := environ_get env "ARCHICAD_MCP_BLOCKED_PATHS" EmptyString in
  let blocked :=
    if truthy extra_blocked
    then (blocked ++ stripped_entries extra_blocked)%list else blocked in
  let allowed_write_env :=
    environ_get env "ARCHICAD_MCP_ALLOWED_WRITE_PATHS" EmptyString in
  let allowed_write :=
    if truthy allowed_write_env
    then stripped_entries allowed_write_env else DEFAULT_ALLOWED_WRITE in
  {| mode := mode;
     blocked_patterns := blocked;
     allowed_write_patterns := allowed_write |}.

(** [f"  - {path}"] *)
Definition bullet (path : string) : string := "  - " ++ path.

(** The list [lines] of [format_file_access_docs]. *)
Definition file_access_lines (h : Host) (config : SecurityConfig) : list string :=
  ((if String.eqb (mode config) "sandboxed" then
      ["FILE ACCESS (SANDBOXED)";
       "=======================";
       "Read access to most paths, write access restricted.";
       EmptyString;
       "ALLOWED WRITE PATHS:"]
        ++ map bullet (allowed_write_expanded h config)
    else
      ["FILE ACCESS";
       "===========";
       "Read/write access to most paths."])
     ++ [EmptyString; "BLOCKED (system directories):"]
     ++ map bullet (blocked_expanded h config)
     ++ [EmptyString;
         "Attempting to access blocked paths raises PermissionError."])%list.

Definition format_file_access_docs (h : Host) (config : SecurityConfig) : string :=
  join nl (file_access_lines h config).

(** ** Vocabulary of the properties *)

(** A character with every backslash turned into a forward slash. *)
Definition to_slash (c : ascii) : ascii :=
  if Ascii.eqb c "092"%char then "/"%char else c.

Fixpoint slashed (s : string) : string :=
  match s with
  | EmptyString => EmptyString
  | String c r => String (to_slash c) (slashed r)
  end.

(** Two patterns that differ in the style of their separators only. *)
Definition same_up_to_separators (p q : string) : Prop := slashed p = slashed q.

(** An environment that sets one variable. *)
Definition setenv (key value : string) (env : Environ) : Environ :=
  fun k => if String.eqb k key then Some value else env k.

Definition empty_environ : Environ := fun _ => None.

End ConfigEnv.

(* ================================================================== *)
(** * scripting/executor.py: the restricted import *)
(* ================================================================== *)

Module SafeImport.
Import PyStr Config Executor.

(** [isinstance(obj, types.ModuleType)] for the values of
    [ALLOWED_MODULES]: [Path] is the class [pathlib.Path], every other
    entry is a module. *)
Definition is_module_type (name : string) : bool :=
  negb (String.eqb name "Path").

(** [name in names] *)
Definition name_in (name : string) (names : list string) : bool :=
  existsb (String.eqb name) names.

Definition _IMPORTABLE_MODULES : list string :=
  filter is_module_type ALLOWED_MODULES.

(** [sorted(names)] on strings: insertion into an ordered list. *)
Fixpoint insert_sorted (name : string) (names : list string) : list string :=
  match names with
  | [] => [name]
  | n :: rest =>
      if String.leb name n then name :: names
      else n :: insert_sorted name rest
  end.

Definition sorted (names : list string) : list string :=
  fold_right insert_sorted [] names.

(** What [_safe_import] does: raise [ImportError] with a message, or hand
    the name to [builtins.__import__]. *)
Inductive Imported : Type :=
| ImportError (message : string)
| BuiltinImport (name : string).

Definition _safe_import (name : string) : Imported :=
  if negb (name_in name _IMPORTABLE_MODULES) then
    let allowed := join ", " (sorted _IMPORTABLE_MODULES) in
    ImportError ("Module '" ++ name ++ "' is not available. Available: "
                 ++ allowed)
  else BuiltinImport name.

End SafeImport.

(* ================================================================== *)
(** * Vocabulary of further properties of the executor *)
(* ================================================================== *)

Module ExecutorVocabulary.
Import PyStr Config Executor.

(** An interpreter for which every script behaves as the given coroutine. *)
Definition always (coro : Coroutine) : Interpreter :=
  {| compile_error := fun _ => None;
     exec_module := fun _ _ => (EmptyString, inr coro);
     exec_mishap := fun _ _ => (false, None);
     wait_for := cooperative_wait_for |}.

(** The interpreter with another [exec]. *)
Definition with_exec (py : Interpreter)
           (exec : string -> Namespace -> string * (PyExc + Coroutine))
  : Interpreter :=
  {| compile_error := compile_error py;
     exec_module := exec;
     exec_mishap := exec_mishap py;
     wait_for := wait_for py |}.

(** A line [_wrap_script] leaves without indentation. *)
Definition is_blank (line : string) : bool := negb (truthy (strip line)).

End ExecutorVocabulary.

(* ================================================================== *)
(** * core/errors.py and core/connection.py: one Archicad instance *)
(* ================================================================== *)

Module Connection.
Import PyStr.
Import PrimFloat.

(** ** JSON values, as [json] decodes them *)

#[local] Set Warnings "-register-all".

Inductive Json : Type :=
| JNull
| JBool (b : bool)
| JInt (n : Z)
| JFloat (x : float)
| JStr (s : string)
| JList (items : list Json)
| JDict (entries : list (string * Json)).

(** [bool(v)] *)
Definition json_truthy (v : Json) : bool :=
  match v with
  | JNull => false
  | JBool b => b
  | JInt n => negb (n =? 0)
  | JFloat x => negb (PrimFloat.eqb x 0%float)
  | JStr s => truthy s
  | JList [] => false
  | JList (_ :: _) => true
  | JDict [] => false
  | JDict (_ :: _) => true
  end.

(** [isinstance(v, dict)] *)
Definition is_dict (v : Json) : bool :=
  match v with
  | JDict _ => true
  | _ => false
  end.

(** [v == 4010] *)
Definition equals_4010 (v : Json) : bool :=
  match v with
  | JInt n => n =? 4010
  | JFloat x => PrimFloat.eqb x 4010%float
  | _ => false
  end.

(** [d.get(key)], [None] being [JNull] when the key is missing. *)
Fixpoint dict_find (key : string) (entries : list (string * Json))
  : option Json :=
  match entries with
  | [] => None
  | (k, v) :: rest => if String.eqb k key then Some v else dict_find key rest
  end.

(** [d.get(key, default)] *)
Definition dict_get (entries : list (string * Json)) (key : string)
           (default : Json) : Json :=
  match dict_find key entries with
  | Some v => v
  | None => default
  end.

(** [d[key] = value]: in place when the key is there, at the end
    otherwise. *)
Fixpoint dict_set (key : string) (value : Json)
         (entries : list (string * Json)) : list (string * Json) :=
  match entries with
  | [] => [(key, value)]
  | (k, v) :: rest =>
      if String.eqb k key then (k, value) :: rest
      else (k, v) :: dict_set key value rest
  end.

(** [type(v).__name__] *)
Definition json_type_name (v : Json) : string :=
  match v with
  | JNull => "NoneType"
  | JBool _ => "bool"
  | JInt _ => "int"
  | JFloat _ => "float"
  | JStr _ => "str"
  | JList _ => "list"
  | JDict _ => "dict"
  end.

(** ** Errors *)

(** core/errors.py: the subclasses of [ArchicadError]. *)
Inductive ErrorClass : Type :=
| ArchicadConnectionError
| CommandError
| TapirNotAvailableError
| ScriptError
| ScriptTimeoutError.

Definition class_name (c : ErrorClass) : string :=
  match c with
  | ArchicadConnectionError => "ArchicadConnectionError"
  | CommandError => "CommandError"
  | TapirNotAvailableError => "TapirNotAvailableError"
  | ScriptError => "ScriptError"
  | ScriptTimeoutError => "ScriptTimeoutError"
  end.

Record ArchicadError := {
  error_class : ErrorClass;
  message : string;
  details : list (string * Json);
  suggestion : string
}.

Definition to_dict (e : ArchicadError) : Json :=
  JDict [("type", JStr (class_name (error_class e)));
         ("message", JStr (message e));
         ("details", JDict (details e));
         ("suggestion", JStr (suggestion e))].

(** How a call ends: with a value, with an [ArchicadError], or with
    another exception that the code does not catch. *)
Inductive Outcome (A : Type) : Type :=
| Ok (value : A)
| Raises (e : ArchicadError)
| Escapes (e : Executor.PyExc).

Arguments Ok {A} value.
Arguments Raises {A} e.
Arguments Escapes {A} e.

(** ** The HTTP session *)

(** [session.post(url, json=payload)] followed by
    [resp.json(content_type=None)]. *)
Inductive Posted : Type :=
| ClientError (text : string)      (* aiohttp.ClientError, with its str() *)
| Failed (e : Executor.PyExc)      (* any other exception *)
| Replied (data : Json).

(** The probe of the manager, which also reads the status. *)
Inductive Probed : Type :=
| Unreachable                      (* TimeoutError or aiohttp.ClientError *)
| Broken (e : Executor.PyExc)      (* any other exception *)
| Answered (status : Z) (data : Json).

(** The session, and [repr] for the values that are not strings. *)
Record Transport := {
  post : string -> Json -> Posted;
  probe : string -> Json -> Probed;
  repr : Json -> string
}.

(** [str(v)] *)
Definition py_str (t : Transport) (v : Json) : string :=
  match v with
  | JStr s => s
  | JNull => "None"
  | JBool true => "True"
  | JBool false => "False"
  | JInt n => of_Z n
  | _ => repr t v
  end.

(** ** ArchicadConnection *)

Record ArchicadConnection := {
  port : Z;
  project_name : string;
  project_path : Json;
  version : string;
  is_teamwork : bool;
  _tapir_available : option bool
}.

Definition url (c : ArchicadConnection) : string :=
  "http://127.0.0.1:" ++ of_Z (port c).

(** [ArchicadConnection(port, session, info)] *)
Definition new_connection (t : Transport) (p : Z)
           (info : list (string * Json)) : ArchicadConnection :=
  {| port := p;
     project_name := py_str t (dict_get info "projectName" (JStr "Unknown"));
     project_path := dict_get info "projectPath" JNull;
     version := py_str t (dict_get info "version" (JStr "Unknown"));
     is_teamwork := json_truthy (dict_get info "isTeamwork" (JBool false));
     _tapir_available :=
       match dict_get info "tapirAvailable" JNull with
       | JBool b => Some b
       | _ => None
       end |}.

(** [self._tapir_available = b] *)
Definition set_tapir (c : ArchicadConnection) (b : bool) : ArchicadConnection :=
  {| port := port c;
     project_name := project_name c;
     project_path := project_path c;
     version := version c;
     is_teamwork := is_teamwork c;
     _tapir_available := Some b |}.

(** The [AttributeError] of [data.get] on a reply that is not an object. *)
Definition no_get (data : Json) : Executor.PyExc :=
  {| Executor.exc_class := Executor.OtherExceptionClass;
     Executor.type_name := "AttributeError";
     Executor.exc_str :=
       "'" ++ json_type_name data ++ "' object has no attribute 'get'";
     Executor.exc_tb := [];
     Executor.syn_lineno := None;
     Executor.syn_msg := EmptyString |}.

Definition _suggest_fix (error_code : Json) : string :=
  "Check command parameters".

Definition cannot_connect (c : ArchicadConnection) (text hint : string)
  : ArchicadError :=
  {| error_class := ArchicadConnectionError;
     message := "Cannot connect to Archicad on port " ++ of_Z (port c);
     details := [("port", JInt (port c)); ("error", JStr text)];
     suggestion := hint |}.

(** The [payload] of [_execute_builtin]. *)
Definition builtin_payload (command : string) (parameters : Json) : Json :=
  JDict [("command", JStr command); ("parameters", parameters)].

Definition _execute_builtin (t : Transport) (c : ArchicadConnection)
           (command : string) (parameters : Json) : Outcome Json :=
  let payload := builtin_payload command parameters in
  match post t (url c) payload with
  | ClientError text =>
      Raises (cannot_connect c text
                "Ensure Archicad is running with JSON API enabled")
  | Failed e => Escapes e
  | Replied (JDict data) =>
      if negb (json_truthy (dict_get data "succeeded" JNull)) then
        match dict_get data "error" (JDict []) with
        | JDict error =>
            Raises
              {| error_class := CommandError;
                 message :=
                   py_str t (dict_get error "message" (JStr "Command failed"));
                 details := [("command", JStr command);
                             ("code", dict_get error "code" JNull)];
                 suggestion := _suggest_fix (dict_get error "code" JNull) |}
        | _ =>
            Raises
              {| error_class := CommandError;
                 message := "Command failed";
                 details := [("command", JStr command)];
                 suggestion := EmptyString |}
        end
      else
        match dict_get data "result" (JDict []) with
        | JDict result => Ok (JDict result)
        | _ => Ok (JDict [])
        end
  | Replied data => Escapes (no_get data)
  end.

Definition tapir_missing (c : ArchicadConnection) (command : string)
  : ArchicadError :=
  {| error_class := TapirNotAvailableError;
     message := "Tapir add-on is not installed";
     details := [("port", JInt (port c)); ("command", JStr command)];
     suggestion :=
       "Install Tapir from "
       ++ "https://github.com/ENZYME-APD/tapir-archicad-automation/releases" |}.

(** The part of [_execute_tapir] after a reply that did not succeed. *)
Definition tapir_failure (t : Transport) (c : ArchicadConnection)
           (command : string) (error : Json)
  : Outcome Json * ArchicadConnection :=
  let error_msg :=
    match error with
    | JDict e => py_str t (dict_get e "message" (JStr EmptyString))
    | _ => EmptyString
    end in
  let error_code :=
    match error with
    | JDict e => dict_get e "code" JNull
    | _ => JNull
    end in
  let is_addon_missing :=
    (negb (equals_4010 error_code)
     && contains "not registered" (lower error_msg))%bool in
  if is_addon_missing then
    (Raises (tapir_missing c command), set_tapir c false)
  else if equals_4010 error_code then
    (Raises {| error_class := CommandError;
               message := "Unknown Tapir command: " ++ command;
               details := [("command", JStr command); ("code", error_code)];
               suggestion := "Check command name with get_docs(search='...')" |},
     set_tapir c true)
  else
    match error with
    | JDict e =>
        (Raises {| error_class := CommandError;
                   message :=
                     py_str t (dict_get e "message" (JStr "Command failed"));
                   details := [("command", JStr command);
                               ("code", error_code)];
                   suggestion := EmptyString |},
         c)
    | _ =>
        (Raises {| error_class := CommandError;
                   message := "Command failed";
                   details := [("command", JStr command)];
                   suggestion := EmptyString |},
         c)
    end.

(** The part of [_execute_tapir] that unwraps a reply that succeeded. *)
Definition tapir_unwrap (t : Transport) (c : ArchicadConnection)
           (command : string) (data : list (string * Json))
  : Outcome Json * ArchicadConnection :=
  let result :=
    match dict_get data "result" (JDict []) with
    | JDict r => r
    | _ => []
    end in
  let addon_response :=
    match dict_get result "addOnCommandResponse" (JDict []) with
    | JDict a => a
    | _ => []
    end in
  match dict_get addon_response "error" JNull with
  | JDict (entry :: more) =>
      let addon_error := entry :: more in
      (Raises {| error_class := CommandError;
                 message :=
                   py_str t (dict_get addon_error "message"
                                      (JStr "Tapir command failed"));
                 details := [("command", JStr command);
                             ("code", dict_get addon_error "code" JNull)];
                 suggestion := EmptyString |},
       c)
  | _ => (Ok (JDict addon_response), set_tapir c true)
  end.

(** The [payload] of [_execute_tapir]. *)
Definition tapir_payload (command : string) (parameters : Json) : Json :=
  JDict [("command", JStr "API.ExecuteAddOnCommand");
         ("parameters",
          JDict [("addOnCommandId",
                  JDict [("commandNamespace", JStr "TapirCommand");
                         ("commandName", JStr command)]);
                 ("addOnCommandParameters", parameters)])].

Definition _execute_tapir (t : Transport) (c : ArchicadConnection)
           (command : string) (parameters : Json)
  : Outcome Json * ArchicadConnection :=
  match _tapir_available c with
  | Some false => (Raises (tapir_missing c command), c)
  | _ =>
      let payload := tapir_payload command parameters in
      match post t (url c) payload with
      | ClientError text =>
          (Raises (cannot_connect c text "Ensure Archicad is running"), c)
      | Failed e => (Escapes e, c)
      | Replied (JDict data) =>
          if negb (json_truthy (dict_get data "succeeded" JNull)) then
            tapir_failure t c command (dict_get data "error" (JDict []))
          else tapir_unwrap t c command data
      | Replied data => (Escapes (no_get data), c)
      end
  end.

(** [parameters or {}] *)
Definition or_empty (parameters : option Json) : Json :=
  match parameters with
  | Some p => if json_truthy p then p else JDict []
  | None => JDict []
  end.

Definition execute (t : Transport) (c : ArchicadConnection)
           (command : string) (parameters : option Json)
  : Outcome Json * ArchicadConnection :=
  let parameters := or_empty parameters in
  if startswith "API." command
  then (_execute_builtin t c command parameters, c)
  else _execute_tapir t c command parameters.

Definition is_alive (t : Transport) (c : ArchicadConnection) : Outcome bool :=
  match _execute_builtin t c "API.IsAlive" (JDict []) with
  | Ok _ => Ok true
  | Raises _ => Ok false
  | Escapes e =>
      match Executor.exc_class e with
      | Executor.BaseExceptionOnly => Escapes e
      | _ => Ok false
      end
  end.

Definition check_tapir (t : Transport) (c : ArchicadConnection)
  : Outcome bool * ArchicadConnection :=
  match _tapir_available c with
  | Some b => (Ok b, c)
  | None =>
      match _execute_tapir t c "GetAddOnVersion" (JDict []) with
      | (Ok _, c') => (Ok true, c')
      | (Raises e, c') =>
          match error_class e with
          | TapirNotAvailableError => (Ok false, c')
          | CommandError => (Ok true, set_tapir c' true)
          | _ => (Raises e, c')
          end
      | (Escapes e, c') => (Escapes e, c')
      end
  end.

End Connection.

(* ================================================================== *)
(** * scripting/api.py: the object scripts see as [archicad] *)
(* ================================================================== *)

Module Api.
Import PyStr Connection.

Definition command (t : Transport) (conn : ArchicadConnection)
           (name : string) (parameters : option Json)
  : Outcome Json * ArchicadConnection :=
  let parameters := or_empty parameters in
  let name := if negb (startswith "API." name) then "API." ++ name else name in
  execute t conn name (Some parameters).

Definition tapir (t : Transport) (conn : ArchicadConnection)
           (name : string) (parameters : option Json)
  : Outcome Json * ArchicadConnection :=
  let parameters := or_empty parameters in
  execute t conn name (Some parameters).

End Api.

(* ================================================================== *)
(** * core/manager.py and the [execute_script] tool of server.py *)
(* ================================================================== *)

Module Manager.
Import PyStr Connection.

(** [range(19723, 19744)] *)
Definition PORT_RANGE : list Z :=
  map (fun i => 19723 + Z.of_nat i) (seq 0 21).

(** [self.connections]: a dictionary from ports to connections, in
    insertion order. *)
Definition Connections : Type := list (Z * ArchicadConnection).

(** [connections.get(port)] *)
Fixpoint lookup (p : Z) (conns : Connections) : option ArchicadConnection :=
  match conns with
  | [] => None
  | (k, c) :: rest => if k =? p then Some c else lookup p rest
  end.

(** [connections.pop(port, None)], as the dictionary that is left. *)
Fixpoint pop (p : Z) (conns : Connections) : Connections :=
  match conns with
  | [] => []
  | (k, c) :: rest => if k =? p then rest else (k, c) :: pop p rest
  end.

(** [connections[port] = conn] *)
Fixpoint store (p : Z) (conn : ArchicadConnection) (conns : Connections)
  : Connections :=
  match conns with
  | [] => [(p, conn)]
  | (k, c) :: rest =>
      if k =? p then (k, conn) :: rest else (k, c) :: store p conn rest
  end.

(** [list(connections.keys())] *)
Definition keys (conns : Connections) : list Z := map fst conns.

(** [f"http://127.0.0.1:{port}"] *)
Definition instance_url (p : Z) : string := "http://127.0.0.1:" ++ of_Z p.

Definition project_info_payload : Json :=
  JDict [("command", JStr "API.ExecuteAddOnCommand");
         ("parameters",
          JDict [("addOnCommandId",
                  JDict [("commandNamespace", JStr "TapirCommand");
                         ("commandName", JStr "GetProjectInfo")]);
                 ("addOnCommandParameters", JDict [])])].

(** The project entries [_get_full_info] adds to [info] when the reply
    succeeded and holds a response object. *)
Definition project_entries (data : Json) : option (list (string * Json)) :=
  match data with
  | JDict d =>
      if json_truthy (dict_get d "succeeded" JNull) then
        match dict_get d "result" (JDict []) with
        | JDict result =>
            match dict_get result "addOnCommandResponse" (JDict []) with
            | JDict proj =>
                Some [("projectName",
                       dict_get proj "projectName" (JStr "Untitled"));
                      ("projectPath", dict_get proj "projectPath" JNull);
                      ("isTeamwork",
                       dict_get proj "isTeamwork" (JBool false));
                      ("tapirAvailable", JBool true)]
            | _ => Some []
            end
        | _ => Some []
        end
      else Some []
  | _ => None
  end.

Definition unknown_project : list (string * Json) :=
  [("projectName", JStr "Unknown"); ("tapirAvailable", JBool false)].

(** [_get_full_info]: the dictionary [info], or the exception that is not
    an [Exception] and leaves the function. *)
Definition _get_full_info (t : Transport) (p : Z)
           (product_info : list (string * Json))
  : Executor.PyExc + list (string * Json) :=
  let info := [("version", dict_get product_info "version" JNull)] in
  match post t (instance_url p) project_info_payload with
  | Replied data =>
      match project_entries data with
      | Some entries => inr (info ++ entries)%list
      | None => inr (info ++ unknown_project)%list
      end
  | ClientError _ => inr (info ++ unknown_project)%list
  | Failed e =>
      match Executor.exc_class e with
      | Executor.BaseExceptionOnly => inl e
      | _ => inr (info ++ unknown_project)%list
      end
  end.

Definition product_info_payload : Json :=
  JDict [("command", JStr "API.GetProductInfo"); ("parameters", JDict [])].

(** [_probe_port]: the connections afterwards, and the exception that
    leaves the function, if any. *)
Definition _probe_port (t : Transport) (conns : Connections) (p : Z)
  : Connections * option Executor.PyExc :=
  match probe t (instance_url p) product_info_payload with
  | Unreachable => (pop p conns, None)
  | Broken e => (conns, Some e)
  | Answered status data =>
      if negb (status =? 200) then (pop p conns, None)
      else
        match data with
        | JDict d =>
            if json_truthy (dict_get d "succeeded" JNull) then
              match dict_get d "result" (JDict []) with
              | JDict result =>
                  match _get_full_info t p result with
                  | inr info => (store p (new_connection t p info) conns, None)
                  | inl e => (conns, Some e)
                  end
              | _ => (conns, None)
              end
            else (conns, None)
        | _ => (conns, Some (no_get data))
        end
  end.

(** [scan_and_connect]: one probe per port of [PORT_RANGE]; [gather]
    keeps the exceptions to itself.  The probes run concurrently and each
    touches the entry of its own port only, so what is stored under a port
    afterwards does not depend on how they interleave; the order of the
    entries does, and is the order of the ports here. *)
Definition scan_and_connect (t : Transport) (conns : Connections)
  : Connections :=
  fold_left (fun acc p => fst (_probe_port t acc p)) PORT_RANGE conns.

Definition get (conns : Connections) (p : Z) : Outcome ArchicadConnection :=
  match lookup p conns with
  | None =>
      Raises
        {| error_class := ArchicadConnectionError;
           message := "No Archicad instance on port " ++ of_Z p;
           details := [("port", JInt p);
                       ("active_ports", JList (map JInt (keys conns)))];
           suggestion := "Use list_instances to find available ports" |}
  | Some conn => Ok conn
  end.

(** models.py: [ArchicadInstance] *)
Record ArchicadInstance := {
  inst_port : Z;
  inst_project_name : string;
  inst_project_path : option string;
  inst_project_type : string;
  inst_archicad_version : string;
  inst_is_tapir_available : bool
}.

Definition instance_of (t : Transport) (conn : ArchicadConnection)
  : ArchicadInstance :=
  let project_type :=
    if is_teamwork conn then "teamwork"
    else if (String.eqb (project_name conn) "Unknown"
             || String.eqb (project_name conn) "Untitled")%bool
         then "untitled"
         else "solo" in
  {| inst_port := port conn;
     inst_project_name := project_name conn;
     inst_project_path :=
       if json_truthy (project_path conn)
       then Some (py_str t (project_path conn)) else None;
     inst_project_type := project_type;
     inst_archicad_version := version conn;
     inst_is_tapir_available :=
       match _tapir_available conn with
       | Some true => true
       | _ => false
       end |}.

Definition get_instances (t : Transport) (conns : Connections)
  : list ArchicadInstance :=
  map (fun entry => instance_of t (snd entry)) conns.

(** The handle [ScriptExecutor.run] reads of a connection. *)
Definition handle (conn : ArchicadConnection) : Executor.ArchicadConnection :=
  {| Executor.port := port conn |}.

(** What the [execute_script] tool comes to: the error of [get], or the
    outcome of [run]. *)
Inductive ToolOutcome : Type :=
| NoInstance (e : ArchicadError)
| Ran (outcome : Executor.RunOutcome).

Definition execute_script (h : Config.Host) (py : Executor.Interpreter)
           (conns : Connections) (cfg : Config.SecurityConfig)
           (p : Z) (script : string) (timeout_seconds : option Z)
  : ToolOutcome :=
  match get conns p with
  | Ok conn =>
      Ran (Executor.run h py script (handle conn) timeout_seconds (Some cfg))
  | Raises e => NoInstance e
  | Escapes e => Ran (Executor.Propagates e)
  end.

(** ** Vocabulary of the properties *)

(** A session whose every request gets the same answer. *)
Definition constant_transport (posted : Posted) (probed : Probed) : Transport :=
  {| post := fun _ _ => posted;
     probe := fun _ _ => probed;
     repr := fun _ => "<object>" |}.

(** A connection of which nothing but the port is known. *)
Definition fresh_connection (p : Z) : ArchicadConnection :=
  {| port := p;
     project_name := "Unknown";
     project_path := JNull;
     version := "Unknown";
     is_teamwork := false;
     _tapir_available := None |}.

(** The reply of Archicad when the add-on is missing. *)
Definition not_registered_reply : Json :=
  JDict [("succeeded", JBool false);
         ("error",
          JDict [("code", JInt 4002);
                 ("message", JStr "Add-On command is not registered")])].

(** Every connection is stored under its own port, and no port twice. *)
Definition well_keyed (conns : Connections) : Prop :=
  NoDup (keys conns)
  /\ forall k c, In (k, c) conns -> port c = k.

End Manager.

(* ================================================================== *)
(** * Properties of the path policy *)
(* ================================================================== *)

Module PolicyFacts.
Import PyStr Config.

Section Loop.
Variable h : Host.

(** The pattern loop returns exactly when some pattern of the list
    matches. *)
Lemma any_pattern_matches_true (path : string) (patterns : list string) :
  any_pattern_matches h path patterns = true <->
  exists pattern,
    In pattern patterns /\ matches_pattern h path pattern = true.
Proof.
  induction patterns as [| p ps IH]; simpl.
  - split; [discriminate | intros [q [[] _]]].
  - destruct (matches_pattern h path p) eqn:Hp.
    + split; [intros _; exists p; auto | reflexivity].
    + rewrite IH. split.
      * intros [q [Hin Hq]]. exists q. auto.
      * intros [q [[Heq | Hin] Hq]].
        -- subst q. congruence.
        -- exists q. auto.
Qed.

Lemma any_pattern_matches_false (path : string) (patterns : list string) :
  any_pattern_matches h path patterns = false <->
  forall pattern,
    In pattern patterns -> matches_pattern h path pattern = false.
Proof.
  induction patterns as [| p ps IH]; simpl.
  - split; [intros _ q [] | reflexivity].
  - destruct (matches_pattern h path p) eqn:Hp.
    + split; [discriminate |].
      intros H. rewrite <- Hp. apply H. auto.
    + rewrite IH. split.
      * intros H q [Heq | Hin]; [subst q; exact Hp | auto].
      * intros H q Hin. apply H. auto.
Qed.

End Loop.

(** C1. A path that matches a blocked pattern is blocked, for reads and
    for writes, whatever the mode and whatever the allow-list holds. *)
Theorem blocked_pattern_denies_access
        (h : Host) (cfg : SecurityConfig) (path : string) (for_write : bool)
        (pattern : string) :
  In pattern (blocked_patterns cfg) ->
  matches_pattern h path pattern = true ->
  is_path_blocked h cfg path for_write = true.
Proof.
  intros Hin Hmatch. unfold is_path_blocked.
  assert (Hany : any_pattern_matches h path (blocked_patterns cfg) = true).
  { apply any_pattern_matches_true. exists pattern. auto. }
  rewrite Hany. reflexivity.
Qed.

Lemma blocked_pattern_denies_access_witness :
  any_pattern_matches linux_host "/etc/passwd"
                      (allowed_write_patterns etc_allowed) = true
  /\ is_path_blocked linux_host etc_allowed "/etc/passwd" true = true
  /\ is_path_blocked linux_host (default_config linux_host)
                     "/etc/passwd" false = true.
Proof.
  split; [reflexivity |].
  split.
  - apply (blocked_pattern_denies_access
             linux_host etc_allowed "/etc/passwd" true "/etc/*").
    + simpl. tauto.
    + reflexivity.
  - apply (blocked_pattern_denies_access
             linux_host (default_config linux_host) "/etc/passwd" false
             "/etc/*").
    + simpl. tauto.
    + reflexivity.
Defined.

(** C2. Sandboxed writes are denied by default: a write to a path that no
    allowed-write pattern matches is blocked, and a write to a path that
    some allowed-write pattern matches and no blocked pattern matches is
    not blocked. *)
Theorem sandboxed_write_needs_allowlist
        (h : Host) (cfg : SecurityConfig) (path : string) :
  mode cfg = "sandboxed" ->
  ((forall pattern, In pattern (allowed_write_patterns cfg) ->
                    matches_pattern h path pattern = false) ->
   is_path_blocked h cfg path true = true)
  /\
  ((exists pattern, In pattern (allowed_write_patterns cfg)
                    /\ matches_pattern h path pattern = true) ->
   (forall pattern, In pattern (blocked_patterns cfg) ->
                    matches_pattern h path pattern = false) ->
   is_path_blocked h cfg path true = false).
Proof.
  intros Hmode. unfold is_path_blocked. rewrite Hmode. simpl.
  split.
  - intros Hnone.
    apply any_pattern_matches_false in Hnone. rewrite Hnone.
    destruct (any_pattern_matches h path (blocked_patterns cfg)); reflexivity.
  - intros Hsome Hnone.
    apply any_pattern_matches_true in Hsome.
    apply any_pattern_matches_false in Hnone.
    rewrite Hnone, Hsome. reflexivity.
Qed.

Lemma sandboxed_write_needs_allowlist_witness :
  is_path_blocked linux_host sandboxed_desktop "/tmp/x.txt" true = true
  /\ is_path_blocked linux_host sandboxed_desktop "~/Desktop/out.txt" true
     = false.
Proof.
  split.
  - apply (sandboxed_write_needs_allowlist
             linux_host sandboxed_desktop "/tmp/x.txt" eq_refl).
    apply any_pattern_matches_false. reflexivity.
  - apply (sandboxed_write_needs_allowlist
             linux_host sandboxed_desktop "~/Desktop/out.txt" eq_refl).
    + apply any_pattern_matches_true. reflexivity.
    + apply any_pattern_matches_false. reflexivity.
Defined.

(** C3. Unrestricted writes and sandboxed reads are blocked exactly when a
    blocked pattern matches, and replacing the allow-list by any other
    changes nothing. *)
Theorem allowlist_only_for_sandboxed_writes
        (h : Host) (cfg : SecurityConfig) (path : string) (for_write : bool) :
  (mode cfg = "unrestricted" /\ for_write = true)
  \/ (mode cfg = "sandboxed" /\ for_write = false) ->
  (is_path_blocked h cfg path for_write = true <->
   exists pattern, In pattern (blocked_patterns cfg)
                   /\ matches_pattern h path pattern = true)
  /\
  (forall allowed,
      is_path_blocked h (with_allowed_write cfg allowed) path for_write
      = is_path_blocked h cfg path for_write).
Proof.
  intros Hcase.
  assert (Hgate : (for_write && String.eqb (mode cfg) "sandboxed")%bool = false).
  { destruct Hcase as [[Hm Hw] | [Hm Hw]]; rewrite Hm, Hw; reflexivity. }
  unfold is_path_blocked. simpl. rewrite Hgate.
  split.
  - rewrite <- any_pattern_matches_true.
    destruct (any_pattern_matches h path (blocked_patterns cfg));
      split; congruence.
  - intros allowed. reflexivity.
Qed.

Lemma allowlist_only_for_sandboxed_writes_witness :
  is_path_blocked linux_host (default_config linux_host) "/tmp/x.txt" true
  = is_path_blocked linux_host
      (with_allowed_write (default_config linux_host) []) "/tmp/x.txt" true
  /\ is_path_blocked linux_host sandboxed_desktop "/srv/data.csv" false
     = is_path_blocked linux_host
         (with_allowed_write sandboxed_desktop ["/srv/*"]) "/srv/data.csv"
         false.
Proof.
  split; symmetry.
  - apply (allowlist_only_for_sandboxed_writes
             linux_host (default_config linux_host) "/tmp/x.txt" true).
    left. split; reflexivity.
  - apply (allowlist_only_for_sandboxed_writes
             linux_host sandboxed_desktop "/srv/data.csv" false).
    right. split; reflexivity.
Defined.

(** The example of the specification: with [~/Desktop/*] as the only
    allowed-write pattern, a sandboxed write to [/tmp/x.txt] is denied and
    one to [~/Desktop/out.txt] is permitted; [/etc/passwd] is denied for
    reads and writes under both modes. *)
Example policy_examples :
  is_path_blocked linux_host sandboxed_desktop "/tmp/x.txt" true = true
  /\ is_path_blocked linux_host sandboxed_desktop "~/Desktop/out.txt" true
     = false
  /\ is_path_blocked linux_host sandboxed_desktop "/etc/passwd" false = true
  /\ is_path_blocked linux_host sandboxed_desktop "/etc/passwd" true = true
  /\ is_path_blocked linux_host (default_config linux_host)
                     "/etc/passwd" false = true
  /\ is_path_blocked linux_host (default_config linux_host)
                     "/etc/passwd" true = true.
Proof. repeat split. Qed.

End PolicyFacts.

(* ================================================================== *)
(** * Properties of the string operations *)
(* ================================================================== *)

Module PyStrFacts.
Import PyStr.

Lemma append_assoc (a b c : string) : (a ++ b) ++ c = a ++ (b ++ c).
Proof.
  induction a as [| x a IH]; simpl; [reflexivity | now rewrite IH].
Qed.

Lemma prefix_append (sub rest : string) :
  String.prefix sub (sub ++ rest) = true.
Proof.
  induction sub as [| x sub IH]; simpl.
  - destruct rest; reflexivity.
  - destruct (ascii_dec x x) as [_ | Hne]; [exact IH | now elim Hne].
Qed.

Lemma contains_prefix (sub s : string) :
  String.prefix sub s = true -> contains sub s = true.
Proof.
  intros H. destruct s; cbn [contains]; rewrite H; reflexivity.
Qed.

(** [sub in (before + sub + after)] *)
Lemma contains_append (sub before after : string) :
  contains sub (before ++ sub ++ after) = true.
Proof.
  induction before as [| x before IH].
  - change (contains sub (sub ++ after) = true).
    apply contains_prefix, prefix_append.
  - change (contains sub (String x (before ++ sub ++ after)) = true).
    cbn [contains]. rewrite IH. apply orb_true_r.
Qed.

Lemma split_not_nil (sep : ascii) (s : string) : split sep s <> [].
Proof.
  destruct s as [| c r]; simpl; [discriminate |].
  destruct (Ascii.eqb c sep); [discriminate |].
  destruct (split sep r); discriminate.
Qed.

(** Splitting distributes over a separator in the middle. *)
Lemma split_append (sep : ascii) (a b : string) :
  split sep (a ++ String sep b) = (split sep a ++ split sep b)%list.
Proof.
  induction a as [| c a IH]; simpl.
  - now rewrite Ascii.eqb_refl.
  - destruct (Ascii.eqb c sep).
    + now rewrite IH.
    + rewrite IH.
      pose proof (split_not_nil sep a) as Hne.
      destruct (split sep a) as [| w ws]; [now elim Hne | reflexivity].
Qed.

Lemma split_free_of (sep : ascii) (s : string) :
  free_of sep s = true -> split sep s = [s].
Proof.
  induction s as [| c r IH]; simpl; [reflexivity |].
  intros H. apply andb_true_iff in H. destruct H as [Hc Hr].
  apply negb_true_iff in Hc. rewrite Hc, (IH Hr). reflexivity.
Qed.

(** No piece of a split contains the separator. *)
Lemma split_pieces_free (sep : ascii) (s : string) :
  Forall (fun w => free_of sep w = true) (split sep s).
Proof.
  induction s as [| c r IH]; simpl.
  - repeat constructor.
  - destruct (Ascii.eqb c sep) eqn:Hc.
    + constructor; [reflexivity | exact IH].
    + destruct (split sep r) as [| w ws].
      * repeat constructor. simpl. now rewrite Hc.
      * inversion IH as [| w' ws' Hw Hws]; subst.
        constructor; [| exact Hws].
        simpl. now rewrite Hc, Hw.
Qed.

(** Splitting undoes joining when no part contains the separator. *)
Lemma split_join (sep : ascii) (parts : list string) :
  parts <> [] ->
  Forall (fun w => free_of sep w = true) parts ->
  split sep (join (String sep EmptyString) parts) = parts.
Proof.
  induction parts as [| p ps IH]; intros Hne Hfree; [now elim Hne |].
  inversion Hfree as [| p' ps' Hp Hps]; subst.
  destruct ps as [| q ps].
  - simpl. now apply split_free_of.
  - change (join (String sep EmptyString) (p :: q :: ps))
      with (p ++ String sep (join (String sep EmptyString) (q :: ps))).
    rewrite split_append, (split_free_of sep p Hp), IH;
      [reflexivity | discriminate | exact Hps].
Qed.

Lemma free_of_append (c : ascii) (a b : string) :
  free_of c (a ++ b) = (free_of c a && free_of c b)%bool.
Proof.
  induction a as [| x a IH]; simpl; [reflexivity |].
  now rewrite IH, andb_assoc.
Qed.

End PyStrFacts.


(* ================================================================== *)
(** * Properties of the wrapper and of error reporting *)
(* ================================================================== *)

Module WrapperFacts.
Import PyStr Config Executor Samples PyStrFacts.

Lemma indent_line_free (line : string) :
  free_of "010"%char line = true ->
  free_of "010"%char (indent_line line) = true.
Proof.
  intros H. unfold indent_line.
  destruct (truthy (strip line)); [| exact H].
  rewrite free_of_append, H. reflexivity.
Qed.

Lemma indented_lines_free (script : string) :
  Forall (fun w => free_of "010"%char w = true)
         (map indent_line (split_lines script)).
Proof.
  apply Forall_map.
  eapply Forall_impl; [| apply split_pieces_free].
  intros line. apply indent_line_free.
Qed.

(** The lines of the wrapped text: three lines, the script's lines
    (indented), four lines. *)
Lemma wrap_script_lines (script : string) :
  split_lines (_wrap_script script)
  = ([EmptyString; "async def __script_main__():"; "    result = None"]
       ++ map indent_line (split_lines script)
       ++ ["    globals()['result'] = result"; EmptyString;
           "__script_result__ = __script_main__()"; EmptyString])%list.
Proof.
  unfold _wrap_script, split_lines, nl.
  set (indented := join _ _).
  change (String "010" EmptyString ++ ?x) with (EmptyString ++ String "010" x).
  rewrite split_append.
  change ("async def __script_main__():" ++ String "010" EmptyString ++ ?x)
    with ("async def __script_main__():" ++ String "010" x).
  rewrite split_append.
  change ("    result = None" ++ String "010" EmptyString ++ ?x)
    with ("    result = None" ++ String "010" x).
  rewrite split_append.
  change (indented ++ String "010" EmptyString ++ ?x)
    with (indented ++ String "010" x).
  rewrite split_append.
  subst indented.
  rewrite split_join.
  - reflexivity.
  - pose proof (split_not_nil "010"%char script) as Hne.
    destruct (split "010"%char script); [now elim Hne | discriminate].
  - apply indented_lines_free.
Qed.

(** Line [k] of the script (counted from 0) is line [k + 3] of the wrapped
    text: the wrapper puts exactly three lines in front of the script. *)
Lemma wrap_script_offset (script : string) (k : nat) (line : string) :
  nth_error (split_lines script) k = Some line ->
  nth_error (split_lines (_wrap_script script)) (k + 3)
  = Some (indent_line line).
Proof.
  intros Hk. rewrite wrap_script_lines.
  rewrite Nat.add_comm. simpl.
  rewrite nth_error_app1.
  - rewrite nth_error_map, Hk. reflexivity.
  - rewrite length_map. apply nth_error_Some. congruence.
Qed.

(** The [SyntaxError] handler reports [e.lineno] as it is, whatever the
    interpreter. *)
Lemma syntax_error_line_unadjusted
      (script out : string) (clock l : Z) (e : PyExc) :
  exc_class e = SyntaxErrorClass ->
  syn_lineno e = Some l ->
  exists r,
    handle_exception script (Holds out) clock e None = Returns r
    /\ success r = false
    /\ error r = Some ("Syntax error at line " ++ of_Z l ++ ": " ++ syn_msg e).
Proof.
  intros Hc Hl. unfold handle_exception. rewrite Hc, Hl.
  eexists. repeat split.
Qed.

(** C5. The script of the test suite with the colon of its line 3 missing:
    the compiler reports line 6 of the wrapped text, which holds the
    script's line 3, and [run] returns that 6 in its error message. *)
Theorem syntax_error_reports_wrapped_line :
  nth_error (split_lines script_missing_colon) 2 = Some "if True"
  /\ nth_error (split_lines (_wrap_script script_missing_colon)) 5
     = Some "    if True"
  /\ run linux_host python script_missing_colon connection None None
     = Returns {| success := false;
                  result := PyNone;
                  stdout := EmptyString;
                  error := Some "Syntax error at line 6: expected ':'";
                  execution_time_ms := 0 |}.
Proof.
  split; [reflexivity |].
  split.
  - apply (wrap_script_offset script_missing_colon 2 "if True"). reflexivity.
  - vm_compute. reflexivity.
Qed.

End WrapperFacts.


(* ================================================================== *)
(** * Properties of error formatting *)
(* ================================================================== *)

Module FormatFacts.
Import PyStr Config Executor Samples PyStrFacts.

Lemma find_script_line_skip (skipped rest : list Frame) :
  (forall f, In f skipped -> is_script_frame f = false) ->
  find_script_line (skipped ++ rest) = find_script_line rest.
Proof.
  induction skipped as [| f fs IH]; intros Hskip; [reflexivity |].
  simpl.
  assert (Hf : is_script_frame f = false) by (apply Hskip; left; reflexivity).
  unfold is_script_frame in Hf.
  destruct (lineno f).
  - rewrite Hf. apply IH. intros g Hg. apply Hskip. right. exact Hg.
  - apply IH. intros g Hg. apply Hskip. right. exact Hg.
Qed.

(** The loop over [reversed(tb)] stops at the innermost script frame. *)
Lemma find_script_line_innermost
      (outer inner : list Frame) (frame : Frame) (l : Z) :
  filename frame = "<script>" ->
  lineno frame = Some l ->
  (forall f, In f inner -> is_script_frame f = false) ->
  find_script_line (rev (outer ++ frame :: inner)) = Some (l - 3).
Proof.
  intros Hname Hline Hinner.
  rewrite rev_app_distr. simpl. rewrite <- !app_assoc.
  rewrite find_script_line_skip.
  - simpl. rewrite Hline, Hname. reflexivity.
  - intros f Hf. apply Hinner. apply in_rev. exact Hf.
Qed.

(** C6. For an exception whose innermost script frame is at line [l] of the
    wrapped text, [_format_error] reports line [l - 3] when that is at
    least 1: with the stripped source line after it when the script has
    such a line, without it otherwise; when [l - 3] is 0 or negative the
    message has no line prefix. *)
Theorem format_error_reports_script_line
        (exc : PyExc) (script : string)
        (outer inner : list Frame) (frame : Frame) (l : Z) :
  exc_tb exc = (outer ++ frame :: inner)%list ->
  filename frame = "<script>" ->
  lineno frame = Some l ->
  (forall f, In f inner -> is_script_frame f = false) ->
  (1 <= l - 3 <= len (split_lines script) ->
   exists line,
     nth_error (split_lines script) (Z.to_nat (l - 3 - 1)) = Some line
     /\ _format_error exc script
        = "Line " ++ of_Z (l - 3) ++ ": " ++ type_name exc ++ ": "
          ++ exc_str exc ++ nl ++ "  > " ++ strip line)
  /\ (len (split_lines script) < l - 3 ->
      _format_error exc script
      = "Line " ++ of_Z (l - 3) ++ ": " ++ type_name exc ++ ": "
        ++ exc_str exc)
  /\ (l - 3 <= 0 ->
      _format_error exc script = type_name exc ++ ": " ++ exc_str exc).
Proof.
  intros Htb Hname Hline Hinner.
  unfold _format_error.
  rewrite Htb, (find_script_line_innermost outer inner frame l Hname Hline Hinner).
  set (n := l - 3).
  assert (Hlen : 1 <= len (split_lines script)).
  { unfold len, split_lines.
    pose proof (split_not_nil "010"%char script) as Hne.
    destruct (split "010"%char script); [now elim Hne | simpl; lia]. }
  repeat split.
  - intros [Hlo Hhi].
    exists (nth (Z.to_nat (n - 1)) (split_lines script) EmptyString).
    split.
    + apply nth_error_nth'. unfold len in Hhi. lia.
    + destruct (Z.eqb_spec n 0); [lia |].
      destruct (Z.ltb_spec 0 n); [| lia].
      destruct (Z.leb_spec n (len (split_lines script))); [| lia].
      reflexivity.
  - intros Hbig.
    destruct (Z.eqb_spec n 0); [lia |].
    destruct (Z.ltb_spec 0 n); [| lia].
    destruct (Z.leb_spec n (len (split_lines script))); [lia |].
    reflexivity.
  - intros Hneg.
    destruct (Z.eqb_spec n 0); [reflexivity |].
    destruct (Z.ltb_spec 0 n); [lia | reflexivity].
Qed.

Lemma format_error_reports_script_line_witness :
  _format_error zero_division_error script_zero_division
  = "Line 3: ZeroDivisionError: division by zero" ++ nl ++ "  > z = x / y".
Proof.
  destruct (format_error_reports_script_line
              zero_division_error script_zero_division
              [in_run 257] [] (in_script 6) 6
              eq_refl eq_refl eq_refl)
    as [Hline _].
  - intros f [].
  - destruct Hline as [line [Hnth Hmsg]].
    + vm_compute. split; discriminate.
    + vm_compute in Hnth. injection Hnth as <-. exact Hmsg.
Defined.

(** C6 does not hold for every traceback: the one of the error below has
    a frame in the compiled script (line 4 of the wrapped text, line 1 of
    the script), and the error string has no line prefix. *)
Lemma nested_exec_error_has_no_line :
  In (in_script 4) (exc_tb nested_zero_division)
  /\ run linux_host python script_nested_exec connection None None
     = Returns {| success := false;
                  result := PyNone;
                  stdout := EmptyString;
                  error := Some "ZeroDivisionError: division by zero";
                  execution_time_ms := 0 |}
  /\ startswith "Line "
       (_format_error nested_zero_division script_nested_exec) = false.
Proof.
  split; [simpl; tauto |].
  split; vm_compute; reflexivity.
Qed.

(** Two more ways a runtime error is reported without its script line,
    both by an [except] clause of [run] that comes before the generic one:
    a [TimeoutError] the script raises under a configured timeout is
    reported as a timeout, and a [SyntaxError] raised while the script runs
    is reported with the line number it carries. *)
Example runtime_errors_caught_early :
  run linux_host python script_own_timeout connection (Some 30) None
  = Returns {| success := false;
               result := PyNone;
               stdout := EmptyString;
               error := Some "Script timed out after 30 seconds";
               execution_time_ms := 0 |}
  /\ run linux_host python script_own_timeout connection None None
     = Returns {| success := false;
                  result := PyNone;
                  stdout := EmptyString;
                  error := Some ("Line 1: TimeoutError: backend busy" ++ nl
                                 ++ "  > raise TimeoutError('backend busy')");
                  execution_time_ms := 0 |}
  /\ run linux_host python script_eval_malformed connection None None
     = Returns {| success := false;
                  result := PyNone;
                  stdout := EmptyString;
                  error := Some "Syntax error at line 1: invalid syntax";
                  execution_time_ms := 0 |}.
Proof.
  split; [| split]; vm_compute; reflexivity.
Qed.

End FormatFacts.


(* ================================================================== *)
(** * Properties of file opening and of result processing *)
(* ================================================================== *)

Module SafeOpenFacts.
Import PyStr Config Executor Samples PyStrFacts PolicyFacts.

Lemma char_in_In (c : ascii) (cs : list ascii) :
  char_in c cs = true <-> In c cs.
Proof.
  unfold char_in. rewrite existsb_exists. split.
  - intros [d [Hin Heq]]. apply Ascii.eqb_eq in Heq. now subst d.
  - intros Hin. exists c. split; [exact Hin | apply Ascii.eqb_refl].
Qed.

(** [safe_open] refuses exactly when the policy blocks [str(file)] for
    the intent its mode gives. *)
Lemma safe_open_denies_iff
      (h : Host) (cfg : SecurityConfig) (file : FileArg) (mode : string) :
  (exists message, safe_open h cfg file mode = PermissionError message)
  <-> is_path_blocked h cfg (file_str file) (_is_write_mode mode) = true.
Proof.
  unfold safe_open.
  destruct (is_path_blocked h cfg (file_str file) (_is_write_mode mode)).
  - split; [reflexivity | intros _].
    destruct (_is_write_mode mode && String.eqb (Config.mode cfg) "sandboxed")%bool;
      eexists; reflexivity.
  - split; [intros [message H]; discriminate | discriminate].
Qed.

(** Otherwise it hands [file] and [mode] to the built-in [open]. *)
Lemma safe_open_permits_iff
      (h : Host) (cfg : SecurityConfig) (file : FileArg) (mode : string) :
  safe_open h cfg file mode = BuiltinOpen file mode
  <-> is_path_blocked h cfg (file_str file) (_is_write_mode mode) = false.
Proof.
  unfold safe_open.
  destruct (is_path_blocked h cfg (file_str file) (_is_write_mode mode)).
  - split; [| discriminate].
    destruct (_is_write_mode mode && String.eqb (Config.mode cfg) "sandboxed")%bool;
      discriminate.
  - split; reflexivity.
Qed.

Lemma write_mode_has_write_char (mode : string) :
  _is_write_mode mode = true <->
  exists c, In c (list_ascii_of_string mode)
            /\ In c ["w"; "x"; "a"; "+"]%char.
Proof.
  unfold _is_write_mode, mode_write_chars. split.
  - destruct (filter _ _) as [| c cs] eqn:Hf; [discriminate | intros _].
    assert (Hc : In c (filter (fun c => char_in c WRITE_MODE_CHARS)
                              (list_ascii_of_string mode))).
    { rewrite Hf. left. reflexivity. }
    apply filter_In in Hc. destruct Hc as [Hin Hw].
    exists c. split; [exact Hin | now apply char_in_In].
  - intros [c [Hin Hw]].
    assert (Hc : In c (filter (fun c => char_in c WRITE_MODE_CHARS)
                              (list_ascii_of_string mode))).
    { apply filter_In. split; [exact Hin | now apply char_in_In]. }
    destruct (filter _ _); [destruct Hc | reflexivity].
Qed.

(** C10. An open is a write exactly when its mode string holds one of
    [w], [x], [a], [+], and for every file argument and every mode string
    [safe_open] refuses exactly when the policy blocks [str(file)] for
    that intent, and hands the file to the built-in [open] otherwise.  So
    under the sandboxed mode every write mode, [r+] among them, is refused
    when a blocked pattern matches or no allowed-write pattern does, and
    [r] and [rb] are refused when a blocked pattern matches only. *)
Theorem write_mode_iff_write_char :
  (forall mode,
      _is_write_mode mode = true <->
      exists c, In c (list_ascii_of_string mode)
                /\ In c ["w"; "x"; "a"; "+"]%char)
  /\ (forall h cfg file mode,
         ((exists message, safe_open h cfg file mode = PermissionError message)
          <-> is_path_blocked h cfg (file_str file) (_is_write_mode mode) = true)
         /\ (safe_open h cfg file mode = BuiltinOpen file mode
             <-> is_path_blocked h cfg (file_str file) (_is_write_mode mode)
                 = false))
  /\ (forall h cfg file mode,
         _is_write_mode mode = true ->
         Config.mode cfg = "sandboxed" ->
         ((exists message, safe_open h cfg file mode = PermissionError message)
          <-> ((exists pattern,
                   In pattern (blocked_patterns cfg)
                   /\ matches_pattern h (file_str file) pattern = true)
               \/ (forall pattern,
                      In pattern (allowed_write_patterns cfg) ->
                      matches_pattern h (file_str file) pattern = false))))
  /\ (forall h cfg file,
         (exists message, safe_open h cfg file "r+" = PermissionError message)
         <-> is_path_blocked h cfg (file_str file) true = true)
  /\ (forall h cfg file mode,
         mode = "r" \/ mode = "rb" ->
         ((exists message, safe_open h cfg file mode = PermissionError message)
          <-> exists pattern,
                In pattern (blocked_patterns cfg)
                /\ matches_pattern h (file_str file) pattern = true)).
Proof.
  split; [exact write_mode_has_write_char |].
  split; [| split; [| split]].
  - intros h cfg file mode.
    split; [apply safe_open_denies_iff | apply safe_open_permits_iff].
  - intros h cfg file mode Hwrite Hmode.
    rewrite safe_open_denies_iff, <- any_pattern_matches_true,
      <- any_pattern_matches_false.
    rewrite Hwrite. unfold is_path_blocked. rewrite Hmode. cbn [andb String.eqb].
    destruct (any_pattern_matches h (file_str file) (blocked_patterns cfg)).
    + split; auto.
    + change (String.eqb "sandboxed" "sandboxed") with true. cbn [andb].
      destruct (any_pattern_matches h (file_str file)
                                    (allowed_write_patterns cfg)).
      * split; [discriminate | intros [H | H]; discriminate].
      * split; auto.
  - intros h cfg file. apply (safe_open_denies_iff h cfg file "r+").
  - intros h cfg file mode Hmode.
    rewrite safe_open_denies_iff, <- any_pattern_matches_true.
    assert (Hread : _is_write_mode mode = false).
    { destruct Hmode; subst mode; reflexivity. }
    rewrite Hread. unfold is_path_blocked. simpl.
    destruct (any_pattern_matches h (file_str file) (blocked_patterns cfg));
      split; congruence.
Qed.

Lemma write_mode_iff_write_char_witness :
  (exists message,
      safe_open linux_host sandboxed_desktop (StrFile "/tmp/x.txt") "w"
      = PermissionError message)
  /\ (exists message,
         safe_open linux_host sandboxed_desktop (StrFile "/tmp/x.txt") "r+"
         = PermissionError message)
  /\ safe_open linux_host sandboxed_desktop
               (PathFile "/home/user/Desktop/x.txt") "a"
     = BuiltinOpen (PathFile "/home/user/Desktop/x.txt") "a"
  /\ safe_open linux_host sandboxed_desktop (StrFile "/tmp/x.txt") "rb"
     = BuiltinOpen (StrFile "/tmp/x.txt") "rb"
  /\ ~ (exists message,
           safe_open linux_host sandboxed_desktop (StrFile "/tmp/x.txt") "r"
           = PermissionError message).
Proof.
  destruct write_mode_iff_write_char
    as [_ [Hgate [Hsandboxed [Hupdate Hread]]]].
  split; [| split; [| split; [| split]]].
  - apply (Hsandboxed linux_host sandboxed_desktop (StrFile "/tmp/x.txt") "w");
      [reflexivity | reflexivity |].
    right. intros pattern [<- | []]. reflexivity.
  - apply Hupdate. reflexivity.
  - apply Hgate. reflexivity.
  - apply Hgate. reflexivity.
  - intros Hrefused.
    apply (Hread linux_host sandboxed_desktop (StrFile "/tmp/x.txt") "r") in Hrefused;
      [| left; reflexivity].
    destruct Hrefused as [pattern [Hin Hmatch]].
    simpl in Hin.
    destruct Hin as [<- | [<- | [<- | [<- | [<- | []]]]]];
      vm_compute in Hmatch; discriminate Hmatch.
Defined.

(** C7 does not hold for every sequence: a tuple is a sequence, this one
    has 501 elements, and it passes through unchanged. *)
Lemma big_tuple_not_truncated :
  is_sequence (PyTuple (range 501)) = true
  /\ sequence_length (PyTuple (range 501)) = 501
  /\ _process_result (PyTuple (range 501)) = PyTuple (range 501)
  /\ run linux_host python script_big_tuple connection None None
     = Returns {| success := true;
                  result := PyTuple (range 501);
                  stdout := EmptyString;
                  error := None;
                  execution_time_ms := 0 |}.
Proof.
  split; [reflexivity |].
  split; [reflexivity |].
  split; [reflexivity |].
  vm_compute. reflexivity.
Qed.

(** C7. A list of more than 500 elements is replaced by a dictionary with
    the element count, the first 50 elements, [truncated = True] and a
    warning that names the count; a list of at most 500 elements and every
    value that is not a list (a tuple, a string, a dictionary, ...) pass
    through unchanged.  The function is total. *)
Theorem process_result_truncates_lists (v : PyVal) :
  (forall items,
      v = PyList items -> 500 < len items ->
      exists warning,
        _process_result v
        = PyDict [("total", PyInt (len items));
                  ("sample", PyList (firstn 50 items));
                  ("truncated", PyBool true);
                  ("warning", PyStr warning)]
        /\ len (firstn 50 items) = 50
        /\ contains (of_Z (len items)) warning = true)
  /\ (forall items,
         v = PyList items -> len items <= 500 -> _process_result v = v)
  /\ (is_list v = false -> _process_result v = v).
Proof.
  split; [| split].
  - intros items -> Hbig. unfold _process_result, MAX_RESULT_ITEMS.
    destruct (Z.ltb_spec 500 (len items)); [| lia].
    eexists. split; [reflexivity |]. split.
    + unfold len in *. rewrite length_firstn. lia.
    + apply contains_append.
  - intros items -> Hsmall. unfold _process_result, MAX_RESULT_ITEMS.
    destruct (Z.ltb_spec 500 (len items)); [lia | reflexivity].
  - intros Hnot. destruct v; try reflexivity. discriminate.
Qed.

Lemma process_result_truncates_lists_witness :
  (exists warning,
      _process_result (PyList (range 501))
      = PyDict [("total", PyInt 501);
                ("sample", PyList (range 50));
                ("truncated", PyBool true);
                ("warning", PyStr warning)])
  /\ _process_result (PyList (range 500)) = PyList (range 500).
Proof.
  destruct (process_result_truncates_lists (PyList (range 501)))
    as [Hbig _].
  destruct (process_result_truncates_lists (PyList (range 500)))
    as [_ [Hsmall _]].
  split.
  - destruct (Hbig (range 501) eq_refl) as [warning [Heq _]].
    + vm_compute. reflexivity.
    + exists warning. exact Heq.
  - apply (Hsmall (range 500) eq_refl). vm_compute. discriminate.
Defined.

End SafeOpenFacts.


(* ================================================================== *)
(** * Properties of [ScriptExecutor.run] *)
(* ================================================================== *)

Module RunFacts.
Import PyStr Config Executor Samples PyStrFacts.

Lemma append_empty (s : string) : s ++ EmptyString = s.
Proof.
  induction s as [| c s IH]; simpl; [reflexivity | now rewrite IH].
Qed.

(** Every way [run] ends: in one of the two outer handlers, in the
    time-out result, in the success result, or not at all. *)
Lemma run_outcome_shape
      (h : Host) (py : Interpreter) (script : string)
      (conn : ArchicadConnection) (timeout_seconds : option Z)
      (cfg : option SecurityConfig) :
  (exists buf clock e fmt_error,
      run h py script conn timeout_seconds cfg
      = handle_exception script buf clock e fmt_error)
  \/ (exists t out clock,
         timeout_seconds = Some t
         /\ run h py script conn timeout_seconds cfg
            = Returns (timed_out_result t out clock))
  \/ (exists v out clock,
         run h py script conn timeout_seconds cfg
         = Returns (success_result v out clock))
  \/ run h py script conn timeout_seconds cfg = NoReturn.
Proof.
  unfold run.
  destruct (compile_error py (_wrap_script script)) as [e |];
    [left; do 4 eexists; reflexivity |].
  destruct (exec_module py (_wrap_script script) _) as [out [e | coro]];
    [destruct (exec_mishap py (_wrap_script script) _) as [closed fmt];
     left; do 4 eexists; reflexivity |].
  destruct timeout_seconds as [t |].
  - destruct (wait_for py coro t out) as [b c v | b c e se | b c |].
    + destruct b as [o |]; cbn [completed getvalue].
      * right. right. left. eauto.
      * left. do 4 eexists. reflexivity.
    + destruct (exc_class e) eqn:Hc;
        try (left; do 4 eexists; reflexivity).
      destruct b as [o |]; cbn [timed_out getvalue].
      * right. left. eauto.
      * left. do 4 eexists. reflexivity.
    + destruct b as [o |]; cbn [timed_out getvalue].
      * right. left. eauto.
      * left. do 4 eexists. reflexivity.
    + right. right. right. reflexivity.
  - destruct (await coro out) as [b c v | b c e se | b c |].
    + destruct b as [o |]; cbn [completed getvalue].
      * right. right. left. eauto.
      * left. do 4 eexists. reflexivity.
    + left. do 4 eexists. reflexivity.
    + right. right. right. reflexivity.
    + right. right. right. reflexivity.
Qed.


(** An exception that is an instance of [Exception] is turned into a
    failed result when the buffer is open and [str()] returns. *)
Lemma handle_exception_captures
      (script out : string) (clock : Z) (e : PyExc) :
  exc_class e <> BaseExceptionOnly ->
  exists r,
    handle_exception script (Holds out) clock e None = Returns r
    /\ success r = false /\ stdout r = out.
Proof.
  intros Hc. unfold handle_exception.
  destruct (exc_class e); cbn [getvalue];
    try (eexists; repeat split; fail).
  now elim Hc.
Qed.

Lemma handle_exception_invariant
      (script : string) (buf : Buffer) (clock : Z) (e : PyExc)
      (fmt_error : option PyExc) (r : ScriptResult) :
  handle_exception script buf clock e fmt_error = Returns r ->
  result_invariant r.
Proof.
  unfold handle_exception, result_invariant.
  destruct (exc_class e); destruct fmt_error; destruct buf;
    cbn [getvalue]; intros H; try discriminate;
    injection H as <-; simpl;
    (split; [split; [intros _; split; [discriminate | reflexivity]
                    | reflexivity]
            | split; [discriminate
                     | intros _; split; [discriminate | reflexivity]]]).
Qed.

Lemma timed_out_result_invariant (t : Z) (out : string) (clock : Z) :
  result_invariant (timed_out_result t out clock).
Proof.
  unfold result_invariant, timed_out_result. simpl.
  split; [split; [intros _; split; [discriminate | reflexivity] | reflexivity]
         | split; [discriminate
                  | intros _; split; [discriminate | reflexivity]]].
Qed.

Lemma success_result_invariant (v : PyVal) (out : string) (clock : Z) :
  result_invariant (success_result v out clock).
Proof.
  unfold result_invariant, success_result. simpl.
  split; [split; [discriminate | intros [Herr _]; now elim Herr]
         | split; [reflexivity | discriminate]].
Qed.


(** The same when [exec] raises in a script that has closed the buffer
    by then. *)
Lemma exec_on_closed_buffer_leaves_run
      (h : Host) (py : Interpreter) (script : string)
      (conn : ArchicadConnection) (timeout_seconds : option Z)
      (cfg : option SecurityConfig) (out : string) (e : PyExc) :
  compile_error py (_wrap_script script) = None ->
  exec_module py (_wrap_script script)
              (_build_namespace h conn (port conn) (config_or_default h cfg))
  = (out, inl e) ->
  exec_mishap py (_wrap_script script)
              (_build_namespace h conn (port conn) (config_or_default h cfg))
  = (true, None) ->
  exc_class e = OtherExceptionClass ->
  run h py script conn timeout_seconds cfg
  = Propagates (closed_file_error 287).
Proof.
  intros Hcompile Hexec Hmishap Hclass. unfold run.
  rewrite Hcompile, Hexec, Hmishap. unfold handle_exception.
  rewrite Hclass. reflexivity.
Qed.


(** The calls of the handlers are not guarded: a script that closes the
    captured-output buffer makes [run] raise the [ValueError] of
    [getvalue()], and an exception whose [__str__] raises makes [run]
    raise what [__str__] raised. *)
Example handler_failures_leave_run :
  run linux_host python script_close_buffer connection None None
  = Propagates (closed_file_error 287)
  /\ run linux_host python script_close_buffer connection (Some 5) None
     = Propagates (closed_file_error 287)
  /\ run linux_host python script_unprintable connection None None
     = Propagates no_text_error
  /\ exc_class (closed_file_error 287) = OtherExceptionClass
  /\ exc_class no_text_error = OtherExceptionClass.
Proof.
  repeat split; vm_compute; reflexivity.
Qed.



(** C9. Every result [run] returns satisfies the invariant of
    [ScriptResult]: [success] is false exactly when [error] is present and
    [result] is [None]; a successful result has no error, a failed one has
    an error and no result. *)
Theorem run_result_invariant
        (h : Host) (py : Interpreter) (script : string)
        (conn : ArchicadConnection) (timeout_seconds : option Z)
        (cfg : option SecurityConfig) (r : ScriptResult) :
  run h py script conn timeout_seconds cfg = Returns r ->
  result_invariant r.
Proof.
  intros Hrun.
  destruct (run_outcome_shape h py script conn timeout_seconds cfg)
    as [[buf [clock [e0 [se H]]]] | [[t [out [clock [_ H]]]]
                                    | [[v [out [clock H]]] | H]]];
    rewrite H in Hrun.
  - eapply handle_exception_invariant. exact Hrun.
  - injection Hrun as <-. apply timed_out_result_invariant.
  - injection Hrun as <-. apply success_result_invariant.
  - discriminate.
Qed.

Lemma run_result_invariant_witness :
  result_invariant
    {| success := true; result := PyInt 42; stdout := EmptyString;
       error := None; execution_time_ms := 0 |}
  /\ result_invariant
       {| success := false; result := PyNone; stdout := EmptyString;
          error := Some "Syntax error at line 6: expected ':'";
          execution_time_ms := 0 |}.
Proof.
  split.
  - apply (run_result_invariant
             linux_host python script_answer connection (Some 5) None).
    vm_compute. reflexivity.
  - apply (run_result_invariant
             linux_host python script_missing_colon connection None None).
    vm_compute. reflexivity.
Defined.

(** The event loop of the samples is cooperative: a script that overruns
    the deadline without suspending completes, and its result is
    returned; with a timeout of zero the script does not start. *)
Example work_is_not_preempted :
  cooperative_wait_for
    {| events := [Emit "busy"; Work 5000]; ending := Return (PyInt 1) |}
    1 EmptyString
  = Done (Holds "busy") 5000 (PyInt 1)
  /\ cooperative_wait_for
       {| events := [Emit "busy"; Work 5000]; ending := Return (PyInt 1) |}
       0 EmptyString
     = TimedOut (Holds EmptyString) 0.
Proof. split; reflexivity. Qed.

Lemma finish_closed
      (deadline : option Z) (fin : Ending) (clock : Z) (out : string)
      (clock' : Z) :
  finish deadline fin ClosedFile clock <> TimedOut (Holds out) clock'.
Proof.
  induction fin; cbn [finish]; try discriminate; try exact IHfin.
  destruct deadline; discriminate.
Qed.

(** In that loop, a run of events that is cut by the deadline has written
    exactly what the events before the cut print, and the cut is in an
    await (or in the final, never completing one). *)
Lemma drive_timed_out
      (d : Z) (evs : list Event) (fin : Ending)
      (out : string) (clock : Z) (out' : string) (clock' : Z) :
  drive (Some d) evs fin out clock = TimedOut (Holds out') clock' ->
  exists k,
    (k <= length evs)%nat
    /\ out' = out ++ printed (firstn k evs)
    /\ ((exists ms, nth_error evs k = Some (Await ms))
        \/ (k = length evs /\ fin = Hang)).
Proof.
  revert out clock.
  induction evs as [| ev rest IH]; intros out clock Hdrive; simpl in Hdrive.
  - exists 0%nat. destruct fin; try discriminate.
    + injection Hdrive as <- _. simpl. rewrite append_empty.
      repeat split; auto.
    + now apply finish_closed in Hdrive.
  - destruct ev as [text | ms | ms].
    + apply IH in Hdrive. destruct Hdrive as [k [Hk [Hout Hcut]]].
      exists (S k). simpl. split; [lia |]. split.
      * rewrite Hout. apply append_assoc.
      * destruct Hcut as [Hawait | [Hlen Hfin]]; [left; exact Hawait |].
        right. split; [now rewrite Hlen | exact Hfin].
    + apply IH in Hdrive. destruct Hdrive as [k [Hk [Hout Hcut]]].
      exists (S k). simpl. split; [lia |]. split; [exact Hout |].
      destruct Hcut as [Hawait | [Hlen Hfin]]; [left; exact Hawait |].
      right. split; [now rewrite Hlen | exact Hfin].
    + destruct (d <? clock + ms).
      * injection Hdrive as <- _. exists 0%nat. simpl.
        rewrite append_empty.
        split; [lia |]. split; [reflexivity |]. left. eauto.
      * apply IH in Hdrive. destruct Hdrive as [k [Hk [Hout Hcut]]].
        exists (S k). simpl. split; [lia |]. split; [exact Hout |].
        destruct Hcut as [Hawait | [Hlen Hfin]]; [left; exact Hawait |].
        right. split; [now rewrite Hlen | exact Hfin].
Qed.



End RunFacts.


(* ================================================================== *)
(** * More properties of the path policy: normalisation and loading *)
(* ================================================================== *)

Module ConfigEnvFacts.
Import PyStr Config ConfigEnv Executor PyStrFacts PolicyFacts.

Lemma prefix_empty (s : string) : String.prefix EmptyString s = true.
Proof. destruct s; reflexivity. Qed.

Lemma to_slash_backslash : to_slash "092"%char = "/"%char.
Proof. reflexivity. Qed.

Lemma to_slash_other (c : ascii) :
  c <> "092"%char -> to_slash c = c.
Proof.
  intros Hc. unfold to_slash.
  destruct (Ascii.eqb_spec c "092"%char); [contradiction | reflexivity].
Qed.

(** [s.replace("\\", "/")] turns each backslash into a slash and touches
    nothing else. *)
Lemma replace_backslash_slashed (s : string) :
  replace backslash "/" s = slashed s.
Proof.
  unfold replace, backslash.
  induction s as [| c r IH]; [reflexivity |].
  cbn [replace_from slashed String.prefix].
  destruct (ascii_dec "092"%char c) as [Heq | Hne].
  - subst c. rewrite prefix_empty, to_slash_backslash.
    cbn [String.length Nat.pred append]. now rewrite IH.
  - rewrite to_slash_other by congruence. now rewrite IH.
Qed.

Lemma slashed_free (s : string) : free_of "092"%char (slashed s) = true.
Proof.
  induction s as [| c r IH]; [reflexivity |].
  cbn [slashed free_of]. rewrite IH, andb_true_r.
  unfold to_slash. destruct (Ascii.eqb_spec c "092"%char) as [-> | Hne].
  - reflexivity.
  - apply negb_true_iff. now apply Ascii.eqb_neq.
Qed.

Lemma slashed_of_free (s : string) :
  free_of "092"%char s = true -> slashed s = s.
Proof.
  induction s as [| c r IH]; [reflexivity |].
  cbn [slashed free_of]. intros H. apply andb_true_iff in H.
  destruct H as [Hc Hr]. rewrite (IH Hr).
  apply negb_true_iff, Ascii.eqb_neq in Hc.
  now rewrite to_slash_other.
Qed.

Lemma slashed_idempotent (s : string) : slashed (slashed s) = slashed s.
Proof. apply slashed_of_free, slashed_free. Qed.

Lemma slashed_append (a b : string) :
  slashed (a ++ b) = slashed a ++ slashed b.
Proof.
  induction a as [| c a IH]; [reflexivity |].
  cbn [append slashed]. now rewrite IH.
Qed.

Lemma slashed_drop (n : nat) (s : string) :
  slashed (drop n s) = drop n (slashed s).
Proof.
  revert s. induction n as [| n IH]; intros s; [reflexivity |].
  destruct s as [| c r]; [reflexivity |]. cbn [drop slashed]. apply IH.
Qed.

(** [lower] neither makes nor removes a backslash. *)
Lemma lower_char_backslash (c : ascii) :
  Ascii.eqb (lower_char c) "092"%char = Ascii.eqb c "092"%char.
Proof.
  destruct c as [[] [] [] [] [] [] [] []]; vm_compute; reflexivity.
Qed.

Lemma lower_free (s : string) :
  free_of "092"%char (lower s) = free_of "092"%char s.
Proof.
  induction s as [| c r IH]; [reflexivity |].
  cbn [lower free_of]. now rewrite IH, lower_char_backslash.
Qed.

(** A text without separators is a prefix of [s] exactly when it is a
    prefix of [s] with its backslashes turned. *)
Lemma prefix_slashed (t s : string) :
  free_of "092"%char t = true ->
  free_of "/"%char t = true ->
  String.prefix t (slashed s) = String.prefix t s.
Proof.
  revert s. induction t as [| a t IH]; intros s Hb Hs.
  - now rewrite !prefix_empty.
  - destruct s as [| b s]; [reflexivity |].
    cbn [free_of] in Hb, Hs.
    apply andb_true_iff in Hb. destruct Hb as [Hab Hb].
    apply andb_true_iff in Hs. destruct Hs as [Has Hs].
    apply negb_true_iff, Ascii.eqb_neq in Hab.
    apply negb_true_iff, Ascii.eqb_neq in Has.
    cbn [slashed String.prefix].
    destruct (Ascii.eqb_spec b "092"%char) as [-> | Hb92].
    + rewrite to_slash_backslash.
      destruct (ascii_dec a "/"%char); [contradiction |].
      destruct (ascii_dec a "092"%char); [contradiction | reflexivity].
    + rewrite (to_slash_other b Hb92).
      destruct (ascii_dec a b); [now apply IH | reflexivity].
Qed.

Lemma contains_slashed (t s : string) :
  free_of "092"%char t = true ->
  free_of "/"%char t = true ->
  contains t (slashed s) = contains t s.
Proof.
  intros Hb Hs. induction s as [| c r IH].
  - cbn [slashed contains]. reflexivity.
  - change (slashed (String c r)) with (String (to_slash c) (slashed r)).
    cbn [contains]. rewrite IH.
    change (String (to_slash c) (slashed r)) with (slashed (String c r)).
    now rewrite prefix_slashed.
Qed.

Lemma replace_from_slashed (t new : string) (skip : nat) (s : string) :
  free_of "092"%char t = true ->
  free_of "/"%char t = true ->
  slashed (replace_from t new skip (slashed s))
  = slashed (replace_from t new skip s).
Proof.
  intros Hb Hs. revert skip.
  induction s as [| c r IH]; intros skip; [reflexivity |].
  change (slashed (String c r)) with (String (to_slash c) (slashed r)).
  cbn [replace_from].
  destruct skip as [| k]; [| apply IH].
  change (String (to_slash c) (slashed r)) with (slashed (String c r)).
  rewrite (prefix_slashed t (String c r) Hb Hs).
  destruct (String.prefix t (String c r)).
  - rewrite !slashed_append, IH. reflexivity.
  - cbn [slashed]. rewrite IH.
    f_equal. unfold to_slash.
    destruct (Ascii.eqb_spec c "092"%char) as [-> | Hne]; [reflexivity |].
    destruct (Ascii.eqb_spec c "092"%char); [contradiction | reflexivity].
Qed.

(** A pattern and the same pattern with forward slashes expand alike. *)
Lemma expand_pattern_slashed (h : Host) (pattern : string) :
  expand_pattern h (slashed pattern) = expand_pattern h pattern.
Proof.
  unfold expand_pattern, startswith.
  rewrite !replace_backslash_slashed.
  rewrite (prefix_slashed "~" pattern eq_refl eq_refl).
  set (a := if String.prefix "~" pattern
            then home h ++ drop 1 pattern else pattern).
  set (a' := if String.prefix "~" pattern
             then home h ++ drop 1 (slashed pattern) else slashed pattern).
  assert (Ha : slashed a' = slashed a).
  { subst a a'. destruct (String.prefix "~" pattern).
    - rewrite !slashed_append, <- slashed_drop, slashed_idempotent.
      reflexivity.
    - apply slashed_idempotent. }
  assert (Hc : contains "${TEMP}" a' = contains "${TEMP}" a).
  { rewrite <- (contains_slashed "${TEMP}" a' eq_refl eq_refl).
    rewrite <- (contains_slashed "${TEMP}" a eq_refl eq_refl).
    now rewrite Ha. }
  rewrite Hc. destruct (contains "${TEMP}" a); [| exact Ha].
  unfold replace.
  rewrite <- (replace_from_slashed "${TEMP}" (tempdir h) 0 a' eq_refl eq_refl).
  rewrite <- (replace_from_slashed "${TEMP}" (tempdir h) 0 a eq_refl eq_refl).
  now rewrite Ha.
Qed.

(** X1. What the policy hands to [fnmatch] never holds a backslash:
    neither the normalised path nor the expanded pattern, on any host. *)
Theorem matching_text_has_no_backslash
        (h : Host) (path pattern : string) :
  free_of "092"%char (normalize_for_match h path) = true
  /\ free_of "092"%char (expand_pattern h pattern) = true
  /\ free_of "092"%char
       (if is_win32 h then lower (expand_pattern h pattern)
        else expand_pattern h pattern) = true.
Proof.
  assert (He : free_of "092"%char (expand_pattern h pattern) = true).
  { unfold expand_pattern. rewrite replace_backslash_slashed.
    apply slashed_free. }
  split; [| split].
  - unfold normalize_for_match. rewrite replace_backslash_slashed.
    destruct (is_win32 h); [rewrite lower_free |]; apply slashed_free.
  - exact He.
  - destruct (is_win32 h); [rewrite lower_free |]; exact He.
Qed.

(** X2. A pattern without a leading [~], without [${TEMP}] and without a
    backslash is used as it is written. *)
Theorem plain_pattern_is_unchanged (h : Host) (pattern : string) :
  startswith "~" pattern = false ->
  contains "${TEMP}" pattern = false ->
  free_of "092"%char pattern = true ->
  expand_pattern h pattern = pattern.
Proof.
  intros Htilde Htemp Hfree. unfold expand_pattern.
  rewrite Htilde, Htemp, replace_backslash_slashed.
  now apply slashed_of_free.
Qed.

Lemma plain_pattern_is_unchanged_witness :
  expand_pattern linux_host "/usr/*" = "/usr/*".
Proof.
  apply (plain_pattern_is_unchanged linux_host "/usr/*"); reflexivity.
Defined.

(** X3. A pattern that starts with [~] matches the same paths as the
    pattern with the home directory written out, provided the written-out
    pattern does not itself start with [~]. *)
Theorem tilde_pattern_is_home_pattern
        (h : Host) (path rest : string) :
  startswith "~" (home h ++ rest) = false ->
  matches_pattern h path ("~" ++ rest)
  = matches_pattern h path (home h ++ rest).
Proof.
  intros Hhome. unfold matches_pattern, expand_pattern.
  rewrite Hhome.
  change (startswith "~" ("~" ++ rest)) with (String.prefix EmptyString rest).
  rewrite prefix_empty. reflexivity.
Qed.

Lemma tilde_pattern_is_home_pattern_witness :
  matches_pattern linux_host "/home/user/Desktop/a.txt" "~/Desktop/*"
  = matches_pattern linux_host "/home/user/Desktop/a.txt"
                    "/home/user/Desktop/*".
Proof.
  apply (tilde_pattern_is_home_pattern
           linux_host "/home/user/Desktop/a.txt" "/Desktop/*").
  reflexivity.
Defined.

(** X4. Two patterns that differ only in backslashes written for forward
    slashes match the same paths. *)
Theorem separator_style_is_irrelevant
        (h : Host) (path p q : string) :
  same_up_to_separators p q ->
  matches_pattern h path p = matches_pattern h path q.
Proof.
  unfold same_up_to_separators. intros Hpq. unfold matches_pattern.
  rewrite <- (expand_pattern_slashed h p), <- (expand_pattern_slashed h q).
  now rewrite Hpq.
Qed.

Lemma separator_style_is_irrelevant_witness :
  matches_pattern linux_host "/srv/data/x.csv"
                  ("/srv" ++ backslash ++ "data" ++ backslash ++ "*")
  = matches_pattern linux_host "/srv/data/x.csv" "/srv/data/*".
Proof.
  apply (separator_style_is_irrelevant linux_host "/srv/data/x.csv").
  reflexivity.
Defined.

End ConfigEnvFacts.


(* ================================================================== *)
(** * Properties of [load_config] and of the access documentation *)
(* ================================================================== *)

Module LoadConfigFacts.
Import PyStr Config ConfigEnv Executor PyStrFacts PolicyFacts.

Lemma lstrip_free (c : ascii) (s : string) :
  free_of c s = true -> free_of c (lstrip s) = true.
Proof.
  induction s as [| d r IH]; [reflexivity |].
  cbn [lstrip]. intros H. destruct (is_space d); [| exact H].
  cbn [free_of] in H. apply andb_true_iff in H. now apply IH.
Qed.

Lemma rstrip_free (c : ascii) (s : string) :
  free_of c s = true -> free_of c (rstrip s) = true.
Proof.
  induction s as [| d r IH]; [reflexivity |].
  cbn [rstrip free_of]. intros H. apply andb_true_iff in H.
  destruct H as [Hd Hr].
  destruct (is_space d && negb (truthy (rstrip r)))%bool; [reflexivity |].
  cbn [free_of]. now rewrite Hd, (IH Hr).
Qed.

Lemma rstrip_idempotent (s : string) : rstrip (rstrip s) = rstrip s.
Proof.
  induction s as [| d r IH]; [reflexivity |].
  cbn [rstrip].
  destruct (is_space d && negb (truthy (rstrip r)))%bool eqn:Hcut;
    [reflexivity |].
  cbn [rstrip]. now rewrite IH, Hcut.
Qed.

(** A text without leading blanks keeps that after [rstrip]. *)
Lemma lstrip_rstrip_lstrip (s : string) :
  lstrip (rstrip (lstrip s)) = rstrip (lstrip s).
Proof.
  induction s as [| d r IH]; [reflexivity |].
  cbn [lstrip]. destruct (is_space d) eqn:Hd; [exact IH |].
  cbn [rstrip]. rewrite Hd. cbn [andb lstrip]. now rewrite Hd.
Qed.

Lemma strip_idempotent (s : string) : strip (strip s) = strip s.
Proof.
  unfold strip. now rewrite lstrip_rstrip_lstrip, rstrip_idempotent.
Qed.

(** The entries read from a semicolon-separated variable. *)
Lemma stripped_entries_clean (text entry : string) :
  In entry (stripped_entries text) ->
  truthy entry = true
  /\ strip entry = entry
  /\ free_of ";"%char entry = true.
Proof.
  unfold stripped_entries. intros Hin.
  apply in_map_iff in Hin. destruct Hin as [piece [<- Hpiece]].
  apply filter_In in Hpiece. destruct Hpiece as [Hsplit Htruthy].
  split; [exact Htruthy |]. split; [apply strip_idempotent |].
  unfold strip. apply rstrip_free, lstrip_free.
  pose proof (split_pieces_free ";"%char text) as Hfree.
  rewrite Forall_forall in Hfree. now apply Hfree.
Qed.

(** X5. Whatever the environment holds, the loaded mode is one of the two
    recognised values, and the namespace built from the loaded
    configuration has the restricted builtins exactly when the write
    allow-list is in force. *)
Theorem loaded_mode_is_consistent
        (h : Host) (env : Environ) (api : ArchicadConnection) (p : Z) :
  (mode (load_config h env) = "sandboxed"
   \/ mode (load_config h env) = "unrestricted")
  /\ (ns_builtins (_build_namespace h api p (load_config h env))
      = ScriptBuiltins
      <-> mode (load_config h env) = "sandboxed")
  /\ (mode (load_config h env) = "sandboxed"
      <-> lower (environ_get env "ARCHICAD_MCP_SECURITY" "unrestricted")
          = "sandboxed").
Proof.
  unfold _build_namespace, load_config. cbn [mode ns_builtins].
  destruct (String.eqb_spec
              (lower (environ_get env "ARCHICAD_MCP_SECURITY" "unrestricted"))
              "sandboxed") as [Heq | Hne].
  - split; [left; reflexivity |]. split; split; auto.
  - split; [right; reflexivity |]. split; split;
      try discriminate; try contradiction.
Qed.

(** X6. No environment unblocks a default: a path that matches a default
    blocked pattern of the platform is blocked under every loaded
    configuration, for reads and writes. *)
Theorem loaded_config_keeps_defaults
        (h : Host) (env : Environ) (path pattern : string)
        (for_write : bool) :
  In pattern (get_default_blocked h) ->
  matches_pattern h path pattern = true ->
  is_path_blocked h (load_config h env) path for_write = true.
Proof.
  intros Hin Hmatch. unfold is_path_blocked.
  assert (Hany : any_pattern_matches
                   h path (blocked_patterns (load_config h env)) = true).
  { apply any_pattern_matches_true. exists pattern. split; [| exact Hmatch].
    unfold load_config. cbn [blocked_patterns].
    destruct (truthy _); [apply in_or_app; left |]; exact Hin. }
  now rewrite Hany.
Qed.

Lemma loaded_config_keeps_defaults_witness :
  is_path_blocked
    linux_host
    (load_config linux_host
                 (setenv "ARCHICAD_MCP_ALLOWED_WRITE_PATHS" "/etc/*"
                         (setenv "ARCHICAD_MCP_SECURITY" "sandboxed"
                                 empty_environ)))
    "/etc/passwd" true = true.
Proof.
  apply (loaded_config_keeps_defaults _ _ "/etc/passwd" "/etc/*").
  - simpl. tauto.
  - reflexivity.
Defined.

(** X7. Every pattern of a loaded configuration is a built-in default or
    an entry of an environment variable, and such an entry is not empty,
    has no blanks around it and holds no semicolon. *)
Theorem loaded_patterns_are_clean
        (h : Host) (env : Environ) (pattern : string) :
  (In pattern (blocked_patterns (load_config h env)) ->
   In pattern (get_default_blocked h)
   \/ (truthy pattern = true /\ strip pattern = pattern
       /\ free_of ";"%char pattern = true))
  /\ (In pattern (allowed_write_patterns (load_config h env)) ->
      In pattern DEFAULT_ALLOWED_WRITE
      \/ (truthy pattern = true /\ strip pattern = pattern
          /\ free_of ";"%char pattern = true)).
Proof.
  unfold load_config. cbn [blocked_patterns allowed_write_patterns].
  split; intros Hin.
  - destruct (truthy _); [| left; exact Hin].
    apply in_app_or in Hin. destruct Hin as [Hd | He]; [left; exact Hd |].
    right. eapply stripped_entries_clean. exact He.
  - destruct (truthy _); [| left; exact Hin].
    right. eapply stripped_entries_clean. exact Hin.
Qed.

Lemma loaded_patterns_are_clean_witness :
  blocked_patterns
    (load_config linux_host
                 (setenv "ARCHICAD_MCP_BLOCKED_PATHS" " ~/.ssh/* ;; "
                         empty_environ))
  = (DEFAULT_BLOCKED_LINUX ++ ["~/.ssh/*"])%list
  /\ strip "~/.ssh/*" = "~/.ssh/*".
Proof.
  split; [reflexivity |].
  destruct (loaded_patterns_are_clean
              linux_host
              (setenv "ARCHICAD_MCP_BLOCKED_PATHS" " ~/.ssh/* ;; "
                      empty_environ)
              "~/.ssh/*") as [Hblocked _].
  destruct Hblocked as [Hdefault | [_ [Hstrip _]]].
  - vm_compute. tauto.
  - vm_compute in Hdefault. repeat destruct Hdefault as [Hd | Hdefault];
      try discriminate Hd; contradiction.
  - exact Hstrip.
Defined.

(** X8. An allow-list variable that is set but holds only blanks and
    semicolons gives an empty allow-list, not the defaults: every sandboxed
    write is then denied. *)
Theorem blank_allowlist_denies_all_writes
        (h : Host) (env : Environ) (value path : string) :
  mode (load_config h env) = "sandboxed" ->
  env "ARCHICAD_MCP_ALLOWED_WRITE_PATHS" = Some value ->
  truthy value = true ->
  (forall piece, In piece (split ";"%char value) ->
                 strip piece = EmptyString) ->
  allowed_write_patterns (load_config h env) = []
  /\ is_path_blocked h (load_config h env) path true = true.
Proof.
  intros Hmode Henv Hset Hblank.
  assert (Hempty : allowed_write_patterns (load_config h env) = []).
  { unfold load_config, environ_get. cbn [allowed_write_patterns].
    rewrite Henv, Hset. unfold stripped_entries.
    assert (Hf : filter (fun p => truthy (strip p)) (split ";"%char value)
                 = []).
    { induction (split ";"%char value) as [| piece rest IH];
        [reflexivity |].
      cbn [filter]. rewrite (Hblank piece) by (left; reflexivity).
      cbn [truthy]. apply IH. intros q Hq. apply Hblank. now right. }
    now rewrite Hf. }
  split; [exact Hempty |].
  unfold is_path_blocked. rewrite Hmode, Hempty. cbn.
  destruct (any_pattern_matches h path _); reflexivity.
Qed.

Lemma blank_allowlist_denies_all_writes_witness :
  is_path_blocked
    linux_host
    (load_config linux_host
                 (setenv "ARCHICAD_MCP_ALLOWED_WRITE_PATHS" " ; "
                         (setenv "ARCHICAD_MCP_SECURITY" "SANDBOXED"
                                 empty_environ)))
    "/home/user/Desktop/out.txt" true = true.
Proof.
  apply (blank_allowlist_denies_all_writes
           linux_host
           (setenv "ARCHICAD_MCP_ALLOWED_WRITE_PATHS" " ; "
                   (setenv "ARCHICAD_MCP_SECURITY" "SANDBOXED"
                           empty_environ))
           " ; " "/home/user/Desktop/out.txt").
  - reflexivity.
  - reflexivity.
  - reflexivity.
  - intros piece Hin. vm_compute in Hin.
    destruct Hin as [<- | [<- | []]]; reflexivity.
Defined.

End LoadConfigFacts.


(* ================================================================== *)
(** * Properties of [format_file_access_docs] *)
(* ================================================================== *)

Module AccessDocsFacts.
Import PyStr Config ConfigEnv PyStrFacts RunFacts.

Lemma contains_after (sub before s : string) :
  contains sub s = true -> contains sub (before ++ s) = true.
Proof.
  intros H. induction before as [| c before IH]; [exact H |].
  change (contains sub (String c (before ++ s)) = true).
  cbn [contains]. rewrite IH. apply orb_true_r.
Qed.

Lemma contains_self (s : string) : contains s s = true.
Proof.
  pose proof (contains_append s EmptyString EmptyString) as H.
  cbn [append] in H. now rewrite append_empty in H.
Qed.

(** A joined text contains each of its parts. *)
Lemma contains_join (sep part : string) (parts : list string) :
  In part parts -> contains part (join sep parts) = true.
Proof.
  induction parts as [| p ps IH]; intros Hin; [destruct Hin |].
  destruct ps as [| q ps].
  - destruct Hin as [-> | []]. apply contains_self.
  - change (join sep (p :: q :: ps)) with (p ++ sep ++ join sep (q :: ps)).
    destruct Hin as [-> | Hin].
    + apply (contains_append part EmptyString).
    + apply contains_after, contains_after, IH, Hin.
Qed.

Lemma bullet_is_not_heading (path : string) :
  bullet path <> "ALLOWED WRITE PATHS:".
Proof. unfold bullet. discriminate. Qed.

(** X9. The documentation lists every blocked pattern in its expanded
    form, and under the sandboxed mode every allowed-write pattern too. *)
Theorem docs_list_every_pattern
        (h : Host) (cfg : SecurityConfig) (pattern : string) :
  (In pattern (blocked_patterns cfg) ->
   contains (bullet (expand_pattern h pattern))
            (format_file_access_docs h cfg) = true)
  /\ (mode cfg = "sandboxed" ->
      In pattern (allowed_write_patterns cfg) ->
      contains (bullet (expand_pattern h pattern))
               (format_file_access_docs h cfg) = true).
Proof.
  unfold format_file_access_docs, file_access_lines.
  split.
  - intros Hin. apply contains_join.
    apply in_or_app. right. apply in_or_app. right.
    apply in_or_app. left.
    apply in_map. unfold blocked_expanded. now apply in_map.
  - intros Hmode Hin. apply contains_join. rewrite Hmode.
    apply in_or_app. left. apply in_or_app. right.
    apply in_map. unfold allowed_write_expanded. now apply in_map.
Qed.

Lemma docs_list_every_pattern_witness :
  contains "  - /etc/*"
           (format_file_access_docs linux_host sandboxed_desktop) = true
  /\ contains "  - /home/user/Desktop/*"
              (format_file_access_docs linux_host sandboxed_desktop) = true.
Proof.
  destruct (docs_list_every_pattern linux_host sandboxed_desktop "/etc/*")
    as [Hblocked _].
  destruct (docs_list_every_pattern linux_host sandboxed_desktop
                                    "~/Desktop/*")
    as [_ Hallowed].
  split.
  - apply Hblocked. simpl. tauto.
  - apply Hallowed; [reflexivity | simpl; tauto].
Defined.

(** X10. The documentation has the heading of the allowed write paths
    among its lines exactly under the sandboxed mode. *)
Theorem docs_allowed_section_iff_sandboxed
        (h : Host) (cfg : SecurityConfig) :
  In "ALLOWED WRITE PATHS:" (file_access_lines h cfg)
  <-> mode cfg = "sandboxed".
Proof.
  unfold file_access_lines.
  destruct (String.eqb_spec (mode cfg) "sandboxed") as [Heq | Hne].
  - split; [intros _; exact Heq | intros _].
    apply in_or_app. left. simpl. tauto.
  - split; [| contradiction]. intros Hin. exfalso.
    repeat (apply in_app_or in Hin; destruct Hin as [Hin | Hin]).
    + simpl in Hin. repeat destruct Hin as [Hin | Hin]; discriminate || auto.
    + simpl in Hin. repeat destruct Hin as [Hin | Hin]; discriminate || auto.
    + apply in_map_iff in Hin. destruct Hin as [path [Hpath _]].
      now apply (bullet_is_not_heading path).
    + simpl in Hin. repeat destruct Hin as [Hin | Hin]; discriminate || auto.
Qed.

End AccessDocsFacts.


(* ================================================================== *)
(** * More properties of the executor *)
(* ================================================================== *)

Module ExecutorMoreFacts.
Import PyStr Config Executor Samples SafeImport ExecutorVocabulary.
Import PyStrFacts PolicyFacts WrapperFacts FormatFacts RunFacts AccessDocsFacts.

(** X11. When no frame of the traceback is a frame of the file [<script>]
    with a line number, the error string is the kind and the message,
    without a line. *)
Theorem format_error_without_script_frame (exc : PyExc) (script : string) :
  (forall f, In f (exc_tb exc) -> is_script_frame f = false) ->
  _format_error exc script = type_name exc ++ ": " ++ exc_str exc.
Proof.
  intros Hnone. unfold _format_error.
  assert (Hfind : find_script_line (rev (exc_tb exc)) = None).
  { rewrite <- (app_nil_r (rev (exc_tb exc))).
    rewrite find_script_line_skip; [reflexivity |].
    intros f Hf. apply Hnone. now apply in_rev. }
  now rewrite Hfind.
Qed.

Lemma format_error_without_script_frame_witness :
  _format_error
    (raised OtherExceptionClass "ValueError"
            "source code string cannot contain null bytes" [in_run 238])
    "x = 1"
  = "ValueError: source code string cannot contain null bytes".
Proof.
  apply (format_error_without_script_frame
           (raised OtherExceptionClass "ValueError"
                   "source code string cannot contain null bytes"
                   [in_run 238])
           "x = 1").
  intros f [<- | []]. reflexivity.
Defined.

(** X12. Whatever the traceback and the script, the error string contains
    the kind of the exception followed by its message. *)
Theorem format_error_keeps_kind_and_message (exc : PyExc) (script : string) :
  contains (type_name exc ++ ": " ++ exc_str exc)
           (_format_error exc script) = true.
Proof.
  unfold _format_error.
  set (km := type_name exc ++ ": " ++ exc_str exc).
  destruct (find_script_line (rev (exc_tb exc))) as [n |];
    [| apply contains_self].
  destruct (negb (n =? 0) && (0 <? n))%bool; [| apply contains_self].
  destruct ((0 <? n) && (n <=? len (split_lines script)))%bool.
  - apply (contains_after km "Line "), (contains_after km (of_Z n)).
    apply (contains_after km ": ").
    set (rest := nl ++ "  > " ++ _).
    assert (Hsplit : type_name exc ++ ": " ++ exc_str exc ++ rest = km ++ rest).
    { subst km. rewrite append_assoc. reflexivity. }
    rewrite Hsplit. apply (contains_append km EmptyString).
  - apply (contains_after km "Line "), (contains_after km (of_Z n)).
    apply (contains_after km ": "), contains_self.
Qed.

(** X13. The wrapped text has seven lines more than the script: three in
    front and four behind.  Line [k] of the script is line [k + 3] of the
    wrapped text, unchanged when it is blank and behind four spaces
    otherwise. *)
Theorem wrapped_script_layout (script : string) :
  len (split_lines (_wrap_script script)) = len (split_lines script) + 7
  /\ (forall k line,
         nth_error (split_lines script) k = Some line ->
         nth_error (split_lines (_wrap_script script)) (k + 3)
         = Some (if is_blank line then line else "    " ++ line))
  /\ nth_error (split_lines (_wrap_script script))
               (List.length (split_lines script) + 3)
     = Some "    globals()['result'] = result".
Proof.
  split; [| split].
  - rewrite wrap_script_lines. unfold len.
    rewrite !length_app, length_map. cbn [List.length]. lia.
  - intros k line Hk. rewrite (wrap_script_offset script k line Hk).
    unfold indent_line, is_blank.
    destruct (truthy (strip line)); reflexivity.
  - rewrite wrap_script_lines.
    change (nth_error
              ([EmptyString; "async def __script_main__():";
                "    result = None"]
                 ++ ?l)%list
              (List.length (split_lines script) + 3))
      with (nth_error
              ([EmptyString; "async def __script_main__():";
                "    result = None"]
                 ++ l)%list
              (List.length (split_lines script) + 3)).
    rewrite nth_error_app2 by (cbn [List.length]; lia).
    cbn [List.length].
    replace (List.length (split_lines script) + 3 - 3)%nat
      with (List.length (split_lines script)) by lia.
    rewrite nth_error_app2 by (rewrite length_map; lia).
    rewrite length_map, Nat.sub_diag. reflexivity.
Qed.

(** X14. Under the sandboxed mode a refused write is always reported as a
    path outside the allowed write paths, with the allow-list, also when
    it is refused because a blocked pattern matches; every other refusal
    is reported with the blocked patterns.  The path shown is
    [str(file)]. *)
Theorem refusal_message_follows_intent
        (h : Host) (cfg : SecurityConfig) (file : FileArg)
        (mode message : string) :
  safe_open h cfg file mode = PermissionError message ->
  message
  = if (_is_write_mode mode && String.eqb (Config.mode cfg) "sandboxed")%bool
    then "Write access denied: '" ++ file_str file
         ++ "' is not in allowed write paths. Allowed: "
         ++ join ", " (allowed_write_expanded h cfg)
    else "Access denied: '" ++ file_str file
         ++ "' is in a blocked directory. Blocked: "
         ++ join ", " (blocked_expanded h cfg).
Proof.
  unfold safe_open.
  destruct (is_path_blocked h cfg (file_str file) (_is_write_mode mode));
    [| discriminate].
  destruct (_is_write_mode mode && String.eqb (Config.mode cfg) "sandboxed")%bool;
    intros H; injection H as <-; reflexivity.
Qed.

Lemma refusal_message_follows_intent_witness :
  any_pattern_matches linux_host "/etc/passwd"
                      (allowed_write_patterns etc_allowed) = true
  /\ safe_open linux_host etc_allowed (StrFile "/etc/passwd") "w"
     = PermissionError
         ("Write access denied: '/etc/passwd' is not in allowed write paths. "
          ++ "Allowed: /etc/*").
Proof.
  split; [reflexivity |].
  pose proof (refusal_message_follows_intent
                linux_host etc_allowed (StrFile "/etc/passwd") "w")
    as Hmessage.
  destruct (safe_open linux_host etc_allowed (StrFile "/etc/passwd") "w")
    as [message | file mode] eqn:Hopen.
  - rewrite (Hmessage message eq_refl). reflexivity.
  - vm_compute in Hopen. discriminate Hopen.
Defined.

(** The policy sees the file argument through [str()] only: a [bytes]
    path is checked as the text of its [repr], which no pattern for the
    path matches, and is then opened as the path it is. *)
Example bytes_path_is_checked_as_text :
  file_str (BytesFile "/etc/passwd") = "b'/etc/passwd'"
  /\ (exists message,
         safe_open linux_host (default_config linux_host)
                   (StrFile "/etc/passwd") "rb"
         = PermissionError message)
  /\ (exists message,
         safe_open linux_host (default_config linux_host)
                   (PathFile "/etc/passwd") "rb"
         = PermissionError message)
  /\ safe_open linux_host (default_config linux_host)
               (BytesFile "/etc/passwd") "rb"
     = BuiltinOpen (BytesFile "/etc/passwd") "rb"
  /\ safe_open linux_host sandboxed_desktop (FdFile 3) "r"
     = BuiltinOpen (FdFile 3) "r".
Proof.
  split; [reflexivity |].
  split; [eexists; reflexivity |].
  split; [eexists; reflexivity |].
  split; reflexivity.
Qed.

(** X15. In both modes, and for any mode string of the configuration, the
    [open] of the namespace refuses a file argument when a blocked pattern
    matches its [str()], for every file mode. *)
Theorem namespace_open_is_gated
        (h : Host) (api : ArchicadConnection) (p : Z)
        (cfg : SecurityConfig) (file : FileArg) (mode pattern : string) :
  In pattern (blocked_patterns cfg) ->
  matches_pattern h (file_str file) pattern = true ->
  exists message,
    ns_open (_build_namespace h api p cfg) file mode
    = PermissionError message.
Proof.
  intros Hin Hmatch. cbn [_build_namespace ns_open]. unfold safe_open.
  assert (Hany : any_pattern_matches h (file_str file) (blocked_patterns cfg)
                 = true).
  { apply any_pattern_matches_true. exists pattern. auto. }
  unfold is_path_blocked. rewrite Hany.
  destruct (_is_write_mode mode && String.eqb (Config.mode cfg) "sandboxed")%bool;
    eexists; reflexivity.
Qed.

Lemma namespace_open_is_gated_witness :
  exists message,
    ns_open (_build_namespace linux_host connection 19723
                              (default_config linux_host))
            (PathFile "/etc/passwd") "rb"
    = PermissionError message.
Proof.
  apply (namespace_open_is_gated
           linux_host connection 19723 (default_config linux_host)
           (PathFile "/etc/passwd") "rb" "/etc/*").
  - simpl. tauto.
  - reflexivity.
Defined.

End ExecutorMoreFacts.


(* ================================================================== *)
(** * More properties of [ScriptExecutor.run] and of the import hook *)
(* ================================================================== *)

Module RunMoreFacts.
Import PyStr Config Executor Samples SafeImport ExecutorVocabulary.
Import PyStrFacts RunFacts AccessDocsFacts.

(** Without a deadline a run of events reaches its ending, having written
    everything its events print. *)
Lemma drive_without_deadline
      (evs : list Event) (fin : Ending) (out : string) (clock : Z) :
  exists clock',
    drive None evs fin out clock
    = finish None fin (Holds (out ++ printed evs)) clock'.
Proof.
  revert out clock.
  induction evs as [| ev rest IH]; intros out clock.
  - exists clock. cbn [drive printed]. rewrite append_empty. reflexivity.
  - destruct ev as [text | ms | ms]; cbn [drive printed].
    + destruct (IH (out ++ text) clock) as [clock' Hd].
      exists clock'. rewrite Hd, append_assoc. reflexivity.
    + apply IH.
    + apply IH.
Qed.

Lemma handle_exception_result
      (script : string) (buf : Buffer) (clock : Z) (e : PyExc)
      (fmt_error : option PyExc) (r : ScriptResult) :
  handle_exception script buf clock e fmt_error = Returns r ->
  success r = false /\ result r = PyNone /\ buf = Holds (stdout r)
  /\ execution_time_ms r = clock.
Proof.
  unfold handle_exception.
  destruct (exc_class e); destruct fmt_error; destruct buf;
    cbn [getvalue]; intros H; try discriminate;
    injection H as <-; repeat split.
Qed.

Lemma process_result_list_bounded (v : PyVal) (items : list PyVal) :
  _process_result v = PyList items -> len items <= 500.
Proof.
  destruct v; cbn [_process_result]; try discriminate.
  unfold MAX_RESULT_ITEMS.
  destruct (Z.ltb_spec 500 (len items0)) as [Hbig | Hsmall];
    [discriminate |].
  intros Heq. injection Heq as <-. exact Hsmall.
Qed.

(** X16. A result that [run] returns never holds a list of more than 500
    elements. *)
Theorem returned_list_is_bounded
        (h : Host) (py : Interpreter) (script : string)
        (conn : ArchicadConnection) (timeout_seconds : option Z)
        (cfg : option SecurityConfig) (r : ScriptResult)
        (items : list PyVal) :
  run h py script conn timeout_seconds cfg = Returns r ->
  result r = PyList items ->
  len items <= 500.
Proof.
  intros Hrun Hlist.
  destruct (run_outcome_shape h py script conn timeout_seconds cfg)
    as [[buf [clock [e0 [se H]]]] | [[t [out [clock [_ H]]]]
                                    | [[v [out [clock H]]] | H]]];
    rewrite H in Hrun.
  - apply handle_exception_result in Hrun.
    destruct Hrun as [_ [Hnone _]]. congruence.
  - injection Hrun as <-. discriminate Hlist.
  - injection Hrun as <-. cbn [result success_result] in Hlist.
    now apply (process_result_list_bounded v).
  - discriminate.
Qed.

Lemma returned_list_is_bounded_witness : len (range 3) <= 500.
Proof.
  apply (returned_list_is_bounded
           linux_host (always (returns (PyList (range 3)))) "result = [0, 1, 2]"
           connection None None
           {| success := true; result := PyList (range 3);
              stdout := EmptyString; error := None;
              execution_time_ms := 0 |}
           (range 3)).
  - reflexivity.
  - reflexivity.
Defined.

(** X17. When the wrapped text does not compile, the script is not
    executed: the outcome is the same whatever [exec] would do, and a
    returned result is a failure with empty captured output. *)
Theorem compile_failure_skips_execution
        (h : Host) (py : Interpreter)
        (exec : string -> Namespace -> string * (PyExc + Coroutine))
        (script : string) (conn : ArchicadConnection)
        (timeout_seconds : option Z) (cfg : option SecurityConfig)
        (e : PyExc) :
  compile_error py (_wrap_script script) = Some e ->
  run h (with_exec py exec) script conn timeout_seconds cfg
  = run h py script conn timeout_seconds cfg
  /\ (forall r,
         run h py script conn timeout_seconds cfg = Returns r ->
         success r = false /\ stdout r = EmptyString).
Proof.
  intros Hcompile. unfold run. cbn [with_exec compile_error].
  rewrite Hcompile. split; [reflexivity |].
  intros r Hr. apply handle_exception_result in Hr.
  destruct Hr as [Hfail [_ [Hout _]]].
  injection Hout as Hout. split; [exact Hfail | now rewrite <- Hout].
Qed.

Lemma compile_failure_skips_execution_witness :
  run linux_host
      (with_exec python
                 (fun _ _ => (EmptyString, inr (raises system_exit))))
      script_missing_colon connection None None
  = run linux_host python script_missing_colon connection None None.
Proof.
  apply (compile_failure_skips_execution
           linux_host python
           (fun _ _ => (EmptyString, inr (raises system_exit)))
           script_missing_colon connection None None missing_colon_error).
  vm_compute. reflexivity.
Defined.

(** X18. Without a timeout, the captured output of the returned result is
    everything the script printed, when the script completes and when it
    raises. *)
Theorem output_is_complete_without_timeout
        (h : Host) (py : Interpreter) (script : string)
        (conn : ArchicadConnection) (cfg : option SecurityConfig)
        (out0 : string) (coro : Coroutine) :
  compile_error py (_wrap_script script) = None ->
  exec_module py (_wrap_script script)
              (_build_namespace h conn (port conn) (config_or_default h cfg))
  = (out0, inr coro) ->
  (forall v,
      ending coro = Return v ->
      exists r,
        run h py script conn None cfg = Returns r
        /\ success r = true
        /\ result r = _process_result v
        /\ error r = None
        /\ stdout r = out0 ++ printed (events coro))
  /\ (forall e,
         ending coro = Raise e ->
         exc_class e <> BaseExceptionOnly ->
         exists r,
           run h py script conn None cfg = Returns r
           /\ success r = false
           /\ stdout r = out0 ++ printed (events coro)).
Proof.
  intros Hcompile Hexec.
  destruct (drive_without_deadline (events coro) (ending coro) out0 0)
    as [clock Hdrive].
  unfold run. rewrite Hcompile, Hexec. unfold await.
  split.
  - intros v Hend. rewrite Hdrive, Hend.
    cbn [finish completed getvalue].
    eexists. repeat split.
  - intros e Hend Hclass. rewrite Hdrive, Hend.
    cbn [finish].
    destruct (handle_exception_captures
                script (out0 ++ printed (events coro)) clock e Hclass)
      as [r Hr].
    exists r. exact Hr.
Qed.

Lemma output_is_complete_without_timeout_witness :
  exists r,
    run linux_host
        (always {| events := [Emit "a"; Await 5; Emit "b"];
                   ending := Raise zero_division_error |})
        "print('a'); await archicad.tapir('X'); print('b'); 1 / 0"
        connection None None
    = Returns r
    /\ success r = false
    /\ stdout r = "ab".
Proof.
  destruct (output_is_complete_without_timeout
              linux_host
              (always {| events := [Emit "a"; Await 5; Emit "b"];
                         ending := Raise zero_division_error |})
              "print('a'); await archicad.tapir('X'); print('b'); 1 / 0"
              connection None EmptyString
              {| events := [Emit "a"; Await 5; Emit "b"];
                 ending := Raise zero_division_error |}
              eq_refl eq_refl)
    as [_ Hraise].
  apply (Hraise zero_division_error eq_refl). discriminate.
Defined.

Lemma name_in_In (name : string) (names : list string) :
  name_in name names = true <-> In name names.
Proof.
  unfold name_in. rewrite existsb_exists. split.
  - intros [n [Hin Heq]]. apply String.eqb_eq in Heq. now subst n.
  - intros Hin. exists name. split; [exact Hin | apply String.eqb_refl].
Qed.

Lemma insert_sorted_In (x name : string) (names : list string) :
  In x (insert_sorted name names) <-> x = name \/ In x names.
Proof.
  induction names as [| n rest IH]; cbn [insert_sorted].
  - simpl. intuition.
  - destruct (String.leb name n); simpl; [intuition |].
    rewrite IH. intuition.
Qed.

Lemma sorted_In (x : string) (names : list string) :
  In x (sorted names) <-> In x names.
Proof.
  induction names as [| n rest IH]; [reflexivity |].
  cbn [sorted fold_right]. fold (sorted rest).
  rewrite insert_sorted_In, IH. simpl. intuition.
Qed.

Lemma importable_modules_listed (module : string) :
  In module _IMPORTABLE_MODULES ->
  contains module (join ", " (sorted _IMPORTABLE_MODULES)) = true.
Proof.
  intros Hin. apply contains_join, sorted_In, Hin.
Qed.

(** X19. The import hook lets through exactly the names of
    [ALLOWED_MODULES] other than [Path]; a refusal names the requested
    module and every importable one. *)
Theorem import_allows_exactly_the_modules (name : string) :
  ((exists n, _safe_import name = BuiltinImport n)
   <-> In name ALLOWED_MODULES /\ name <> "Path")
  /\ (forall message,
         _safe_import name = ImportError message ->
         contains name message = true
         /\ forall module,
             In module ALLOWED_MODULES -> module <> "Path" ->
             contains module message = true).
Proof.
  assert (Himportable :
            forall m, In m _IMPORTABLE_MODULES
                      <-> In m ALLOWED_MODULES /\ m <> "Path").
  { intros m. unfold _IMPORTABLE_MODULES, is_module_type.
    rewrite filter_In, negb_true_iff, String.eqb_neq. reflexivity. }
  unfold _safe_import.
  destruct (name_in name _IMPORTABLE_MODULES) eqn:Hin; cbn [negb].
  - apply name_in_In, Himportable in Hin.
    split; [| discriminate].
    split; [intros _; exact Hin | intros _; eexists; reflexivity].
  - split.
    + split; [intros [n Hn]; discriminate |].
      intros Hallowed. apply Himportable, name_in_In in Hallowed. congruence.
    + intros message Hmessage. injection Hmessage as <-.
      split.
      * apply (contains_append name "Module '").
      * intros module Hmod Hnot.
        apply (contains_after module "Module '"), contains_after.
        apply (contains_after module "' is not available. Available: ").
        apply (importable_modules_listed module).
        apply Himportable. split; assumption.
Qed.

End RunMoreFacts.


(* ================================================================== *)
(** * Properties of the connection and of the script API *)
(* ================================================================== *)

Module ConnectionFacts.
Import PyStr PyStrFacts Connection Manager.

Lemma or_empty_idempotent (parameters : option Json) :
  or_empty (Some (or_empty parameters)) = or_empty parameters.
Proof.
  destruct parameters as [p |]; [| reflexivity].
  cbn [or_empty]. destruct (json_truthy p) eqn:Hp.
  - now rewrite Hp.
  - reflexivity.
Qed.

(** What [tapir_failure] leaves behind. *)
Lemma tapir_failure_shape
      (t : Transport) (c : ArchicadConnection) (command : string)
      (error : Json) :
  exists e c',
    tapir_failure t c command error = (Raises e, c')
    /\ port c' = port c
    /\ ((error_class e = TapirNotAvailableError
         /\ _tapir_available c' = Some false)
        \/ (error_class e = CommandError
            /\ (_tapir_available c' = Some true \/ c' = c))).
Proof.
  unfold tapir_failure.
  destruct (negb _ && contains "not registered" _)%bool.
  - eexists. eexists. split; [reflexivity |]. split; [reflexivity |].
    left. split; reflexivity.
  - destruct (equals_4010 _).
    + eexists. eexists. split; [reflexivity |]. split; [reflexivity |].
      right. split; [reflexivity | left; reflexivity].
    + destruct error; eexists; eexists;
        (split; [reflexivity |]); (split; [reflexivity |]);
        right; (split; [reflexivity | right; reflexivity]).
Qed.

(** What [tapir_unwrap] leaves behind. *)
Lemma tapir_unwrap_shape
      (t : Transport) (c : ArchicadConnection) (command : string)
      (data : list (string * Json)) :
  (exists v, tapir_unwrap t c command data
             = (Ok (JDict v), set_tapir c true))
  \/ (exists e, tapir_unwrap t c command data = (Raises e, c)
                /\ error_class e = CommandError).
Proof.
  unfold tapir_unwrap.
  destruct (dict_get _ "error" JNull) as [| b | n | x | s | items | entries];
    try (left; eexists; reflexivity).
  destruct entries as [| entry more].
  - left. eexists. reflexivity.
  - right. eexists. split; reflexivity.
Qed.

(** Every way [_execute_tapir] ends, with the flag it leaves. *)
Lemma execute_tapir_shape
      (t : Transport) (c : ArchicadConnection) (command : string)
      (parameters : Json) :
  port (snd (_execute_tapir t c command parameters)) = port c
  /\ ((exists v,
          fst (_execute_tapir t c command parameters) = Ok (JDict v)
          /\ _tapir_available (snd (_execute_tapir t c command parameters))
             = Some true)
      \/ (exists e,
             fst (_execute_tapir t c command parameters) = Raises e
             /\ error_class e = TapirNotAvailableError
             /\ _tapir_available (snd (_execute_tapir t c command parameters))
                = Some false)
      \/ (exists e,
             fst (_execute_tapir t c command parameters) = Raises e
             /\ error_class e <> TapirNotAvailableError
             /\ _tapir_available c <> Some false
             /\ (_tapir_available
                   (snd (_execute_tapir t c command parameters)) = Some true
                 \/ snd (_execute_tapir t c command parameters) = c))
      \/ (exists e,
             fst (_execute_tapir t c command parameters) = Escapes e
             /\ _tapir_available c <> Some false
             /\ snd (_execute_tapir t c command parameters) = c)).
Proof.
  unfold _execute_tapir.
  assert (Hmain :
            _tapir_available c <> Some false ->
            let r :=
              match post t (url c) (tapir_payload command parameters) with
              | ClientError text =>
                  (Raises (cannot_connect c text "Ensure Archicad is running"),
                   c)
              | Failed e => (Escapes e, c)
              | Replied (JDict data) =>
                  if negb (json_truthy (dict_get data "succeeded" JNull))
                  then tapir_failure t c command
                                     (dict_get data "error" (JDict []))
                  else tapir_unwrap t c command data
              | Replied data => (Escapes (no_get data), c)
              end in
            port (snd r) = port c
            /\ ((exists v, fst r = Ok (JDict v)
                           /\ _tapir_available (snd r) = Some true)
                \/ (exists e, fst r = Raises e
                              /\ error_class e = TapirNotAvailableError
                              /\ _tapir_available (snd r) = Some false)
                \/ (exists e, fst r = Raises e
                              /\ error_class e <> TapirNotAvailableError
                              /\ _tapir_available c <> Some false
                              /\ (_tapir_available (snd r) = Some true
                                  \/ snd r = c))
                \/ (exists e, fst r = Escapes e
                              /\ _tapir_available c <> Some false
                              /\ snd r = c))).
  { intros Hflag.
    destruct (post t (url c) (tapir_payload command parameters))
      as [text | e | data]; cbn zeta.
    - split; [reflexivity |]. right. right. left.
      eexists. split; [reflexivity |]. split; [discriminate |].
      split; [exact Hflag | right; reflexivity].
    - split; [reflexivity |]. right. right. right.
      eexists. split; [reflexivity |]. split; [exact Hflag | reflexivity].
    - destruct data as [| b | n | x | s | items | entries];
        try (split; [reflexivity |]; right; right; right;
             eexists; split; [reflexivity |];
             split; [exact Hflag | reflexivity]).
      destruct (negb (json_truthy (dict_get entries "succeeded" JNull))).
      + destruct (tapir_failure_shape
                    t c command (dict_get entries "error" (JDict [])))
          as [e [c' [Heq [Hport Hcases]]]].
        rewrite Heq. cbn [fst snd]. split; [exact Hport |].
        destruct Hcases as [[Hclass Hfalse] | [Hclass Hstate]].
        * right. left. exists e. auto.
        * right. right. left. exists e.
          split; [reflexivity |]. split; [congruence |].
          split; [exact Hflag | exact Hstate].
      + destruct (tapir_unwrap_shape t c command entries)
          as [[v Heq] | [e [Heq Hclass]]]; rewrite Heq; cbn [fst snd].
        * split; [reflexivity |]. left. exists v. split; reflexivity.
        * split; [reflexivity |]. right. right. left. exists e.
          split; [reflexivity |]. split; [congruence |].
          split; [exact Hflag | right; reflexivity]. }
  destruct (_tapir_available c) as [[|] |] eqn:Hflag.
  - apply Hmain. discriminate.
  - cbn [fst snd]. split; [reflexivity |]. right. left.
    eexists. split; [reflexivity |]. split; [reflexivity | exact Hflag].
  - apply Hmain. discriminate.
Qed.

(** X20. Once [_execute_tapir] has raised [TapirNotAvailableError], every
    later Tapir call on the connection raises it again without sending a
    request, whatever the session would answer, and [check_tapir] says
    no. *)
Theorem tapir_unavailable_is_permanent
        (t : Transport) (c : ArchicadConnection) (command : string)
        (parameters : Json) (e : ArchicadError) (c' : ArchicadConnection) :
  _execute_tapir t c command parameters = (Raises e, c') ->
  error_class e = TapirNotAvailableError ->
  forall t' command' parameters',
    _execute_tapir t' c' command' parameters'
    = (Raises (tapir_missing c' command'), c')
    /\ check_tapir t' c' = (Ok false, c').
Proof.
  intros Hcall Hclass t' command' parameters'.
  assert (Hflag : _tapir_available c' = Some false).
  { destruct (execute_tapir_shape t c command parameters) as [_ Hshape].
    rewrite Hcall in Hshape. cbn [fst snd] in Hshape.
    destruct Hshape as [[v [Hv _]] | [[e1 [_ [_ Hf]]]
                                     | [[e1 [He1 [Hne _]]] | [e1 [He1 _]]]]].
    - discriminate Hv.
    - exact Hf.
    - injection He1 as <-. contradiction.
    - discriminate He1. }
  unfold check_tapir, _execute_tapir. rewrite Hflag. split; reflexivity.
Qed.

Lemma tapir_unavailable_is_permanent_witness :
  check_tapir
    (constant_transport
       (Replied (JDict [("succeeded", JBool true)])) Unreachable)
    (set_tapir (fresh_connection 19723) false)
  = (Ok false, set_tapir (fresh_connection 19723) false).
Proof.
  apply (tapir_unavailable_is_permanent
           (constant_transport (Replied not_registered_reply) Unreachable)
           (fresh_connection 19723) "GetAddOnVersion" (JDict [])
           (tapir_missing (fresh_connection 19723) "GetAddOnVersion")
           (set_tapir (fresh_connection 19723) false)
           eq_refl eq_refl
           (constant_transport
              (Replied (JDict [("succeeded", JBool true)])) Unreachable)
           "GetProjectInfo" (JDict [])).
Defined.

(** X21. When [check_tapir] returns an answer, the connection remembers
    exactly that answer, and asking again returns it without a request. *)
Theorem check_tapir_answer_is_cached
        (t : Transport) (c : ArchicadConnection) (b : bool)
        (c' : ArchicadConnection) :
  check_tapir t c = (Ok b, c') ->
  _tapir_available c' = Some b
  /\ forall t', check_tapir t' c' = (Ok b, c').
Proof.
  intros Hcheck.
  assert (Hflag : _tapir_available c' = Some b).
  { unfold check_tapir in Hcheck.
    destruct (_tapir_available c) as [b0 |] eqn:Hc.
    - injection Hcheck as <- <-. exact Hc.
    - destruct (execute_tapir_shape t c "GetAddOnVersion" (JDict []))
        as [_ Hshape].
      destruct (_execute_tapir t c "GetAddOnVersion" (JDict []))
        as [o c1].
      cbn [fst snd] in Hshape.
      destruct o as [v | e | e].
      + injection Hcheck as <- <-.
        destruct Hshape as [[v1 [_ Hf]] | [[e1 [He1 _]]
                                          | [[e1 [He1 _]] | [e1 [He1 _]]]]];
          [exact Hf | discriminate He1 | discriminate He1 | discriminate He1].
      + destruct (error_class e) eqn:Hclass; try discriminate Hcheck.
        * injection Hcheck as <- <-. reflexivity.
        * injection Hcheck as <- <-.
          destruct Hshape as [[v1 [Hv _]] | [[e1 [_ [_ Hf]]]
                                            | [[e1 [He1 [Hne _]]]
                                              | [e1 [He1 _]]]]].
          -- discriminate Hv.
          -- exact Hf.
          -- injection He1 as <-. contradiction.
          -- discriminate He1.
      + discriminate Hcheck. }
  split; [exact Hflag |].
  intros t'. unfold check_tapir. now rewrite Hflag.
Qed.

Lemma check_tapir_answer_is_cached_witness :
  _tapir_available
    (snd (check_tapir
            (constant_transport (Replied not_registered_reply) Unreachable)
            (fresh_connection 19723)))
  = Some false.
Proof.
  apply (check_tapir_answer_is_cached
           (constant_transport (Replied not_registered_reply) Unreachable)
           (fresh_connection 19723) false
           (snd (check_tapir
                   (constant_transport (Replied not_registered_reply)
                                       Unreachable)
                   (fresh_connection 19723)))).
  reflexivity.
Defined.

(** X22. What the two executors return is always a JSON object, and a
    Tapir call that returns marks the add-on as available and keeps the
    port. *)
Theorem executors_return_objects
        (t : Transport) (c : ArchicadConnection) (command : string)
        (parameters : Json) :
  (forall v, _execute_builtin t c command parameters = Ok v ->
             is_dict v = true)
  /\ (forall v c',
         _execute_tapir t c command parameters = (Ok v, c') ->
         is_dict v = true
         /\ _tapir_available c' = Some true
         /\ port c' = port c).
Proof.
  split.
  - intros v. unfold _execute_builtin.
    destruct (post t (url c) (builtin_payload command parameters))
      as [text | e | data]; try discriminate.
    destruct data as [| b | n | x | s | items | entries]; try discriminate.
    destruct (negb (json_truthy (dict_get entries "succeeded" JNull))).
    + destruct (dict_get entries "error" (JDict [])); discriminate.
    + destruct (dict_get entries "result" (JDict []));
        intros H; injection H as <-; reflexivity.
  - intros v c' Hcall.
    destruct (execute_tapir_shape t c command parameters) as [Hport Hshape].
    rewrite Hcall in Hport, Hshape. cbn [fst snd] in Hport, Hshape.
    destruct Hshape as [[v1 [Hv Hf]] | [[e1 [He1 _]]
                                       | [[e1 [He1 _]] | [e1 [He1 _]]]]];
      try discriminate He1.
    injection Hv as ->. repeat split; assumption.
Qed.

Lemma executors_return_objects_witness :
  is_dict (JDict []) = true.
Proof.
  destruct (executors_return_objects
              (constant_transport
                 (Replied (JDict [("succeeded", JBool true);
                                  ("result", JStr "done")]))
                 Unreachable)
              (fresh_connection 19723) "API.IsAlive" (JDict []))
    as [Hbuiltin _].
  apply Hbuiltin. reflexivity.
Defined.

(** X23. [is_alive] never raises an [ArchicadError], and it answers yes
    exactly when the instance replies to [API.IsAlive] with an object
    whose [succeeded] entry is truthy. *)
Theorem is_alive_iff_reply_succeeded
        (t : Transport) (c : ArchicadConnection) :
  (forall e, is_alive t c <> Raises e)
  /\ (is_alive t c = Ok true
      <-> exists data,
          post t (url c) (builtin_payload "API.IsAlive" (JDict []))
          = Replied (JDict data)
          /\ json_truthy (dict_get data "succeeded" JNull) = true).
Proof.
  unfold is_alive, _execute_builtin.
  destruct (post t (url c) (builtin_payload "API.IsAlive" (JDict [])))
    as [text | e | data].
  - split; [discriminate |].
    split; [discriminate | intros [d [H _]]; discriminate].
  - split.
    + destruct (Executor.exc_class e); discriminate.
    + split.
      * destruct (Executor.exc_class e); discriminate.
      * intros [d [H _]]. discriminate.
  - destruct data as [| b | n | x | s | items | entries];
      try (split; [discriminate |];
           split; [discriminate | intros [d [H _]]; discriminate]).
    destruct (json_truthy (dict_get entries "succeeded" JNull)) eqn:Hs;
      cbn [negb].
    + split.
      * destruct (dict_get entries "result" (JDict [])); discriminate.
      * split.
        -- intros _. exists entries. split; [reflexivity | exact Hs].
        -- intros _.
           destruct (dict_get entries "result" (JDict [])); reflexivity.
    + split.
      * destruct (dict_get entries "error" (JDict [])); discriminate.
      * split.
        -- destruct (dict_get entries "error" (JDict [])); discriminate.
        -- intros [d [H Hd]]. injection H as <-. congruence.
Qed.

(** X24. [archicad.command] always takes the built-in path, with a name
    that starts with [API.] (the name given, or the name behind [API.]),
    and leaves the connection as it is; [archicad.tapir] takes the
    built-in path too when the name starts with [API.], and the Tapir
    path otherwise. *)
Theorem script_api_routing
        (t : Transport) (c : ArchicadConnection) (name : string)
        (parameters : option Json) :
  (exists name',
      startswith "API." name' = true
      /\ (name' = name \/ name' = "API." ++ name)
      /\ Api.command t c name parameters
         = (_execute_builtin t c name' (or_empty parameters), c))
  /\ Api.tapir t c name parameters
     = if startswith "API." name
       then (_execute_builtin t c name (or_empty parameters), c)
       else _execute_tapir t c name (or_empty parameters).
Proof.
  unfold Api.command, Api.tapir, execute.
  rewrite or_empty_idempotent.
  split; [| reflexivity].
  destruct (startswith "API." name) eqn:Hname; cbn [negb].
  - exists name. rewrite Hname. auto.
  - exists ("API." ++ name).
    assert (Hp : startswith "API." ("API." ++ name) = true)
      by apply prefix_append.
    rewrite Hp. auto.
Qed.

End ConnectionFacts.


(* ================================================================== *)
(** * Properties of the connection manager and of [execute_script] *)
(* ================================================================== *)

Module ManagerFacts.
Import PyStr PyStrFacts Connection Manager.

Lemma lookup_In (p : Z) (conns : Connections) (c : ArchicadConnection) :
  lookup p conns = Some c -> In (p, c) conns.
Proof.
  induction conns as [| [k c0] rest IH]; cbn [lookup]; [discriminate |].
  destruct (Z.eqb_spec k p) as [-> | Hne].
  - intros H. injection H as <-. left. reflexivity.
  - intros H. right. now apply IH.
Qed.

Lemma lookup_None (p : Z) (conns : Connections) :
  lookup p conns = None <-> ~ In p (keys conns).
Proof.
  induction conns as [| [k c0] rest IH]; cbn [lookup keys map fst].
  - split; [intros _ [] | reflexivity].
  - destruct (Z.eqb_spec k p) as [-> | Hne].
    + split; [discriminate | intros H; elim H; left; reflexivity].
    + rewrite IH. unfold keys. split.
      * intros H [Heq | Hin]; [contradiction | now apply H].
      * intros H Hin. apply H. now right.
Qed.

Lemma keys_pop_subset (p q : Z) (conns : Connections) :
  In q (keys (pop p conns)) -> In q (keys conns).
Proof.
  induction conns as [| [k c0] rest IH]; cbn [pop]; [auto |].
  destruct (k =? p); cbn [keys map fst In].
  - auto.
  - intros [H | H]; [left; exact H | right; now apply IH].
Qed.

Lemma lookup_pop_other (p q : Z) (conns : Connections) :
  q <> p -> lookup q (pop p conns) = lookup q conns.
Proof.
  intros Hne. induction conns as [| [k c0] rest IH]; [reflexivity |].
  cbn [pop]. destruct (Z.eqb_spec k p) as [-> | Hkp]; cbn [lookup].
  - destruct (Z.eqb_spec p q); [congruence | reflexivity].
  - now rewrite IH.
Qed.

Lemma lookup_pop_same (p : Z) (conns : Connections) :
  NoDup (keys conns) -> lookup p (pop p conns) = None.
Proof.
  induction conns as [| [k c0] rest IH]; [reflexivity |].
  cbn [keys map fst]. intros Hnd. inversion Hnd as [| k' ks Hnotin Hrest].
  subst. cbn [pop]. destruct (Z.eqb_spec k p) as [-> | Hkp].
  - now apply lookup_None.
  - cbn [lookup]. destruct (Z.eqb_spec k p); [contradiction |].
    now apply IH.
Qed.

Lemma well_keyed_pop (p : Z) (conns : Connections) :
  well_keyed conns -> well_keyed (pop p conns).
Proof.
  unfold well_keyed.
  induction conns as [| [k c0] rest IH]; [auto |].
  cbn [keys map fst]. intros [Hnd Hport].
  inversion Hnd as [| k' ks Hnotin Hrest]. subst.
  assert (Hrest' : NoDup (keys rest) /\
                   forall k1 c1, In (k1, c1) rest -> port c1 = k1).
  { split; [exact Hrest |]. intros k1 c1 H. apply Hport. now right. }
  cbn [pop]. destruct (k =? p); [exact Hrest' |].
  destruct (IH Hrest') as [Hnd' Hport'].
  split.
  - cbn [keys map fst]. constructor; [| exact Hnd'].
    intros Hin. apply Hnotin. now apply (keys_pop_subset p).
  - intros k1 c1 [Heq | Hin].
    + apply Hport. left. exact Heq.
    + now apply Hport'.
Qed.

Lemma keys_store (p : Z) (conn : ArchicadConnection) (conns : Connections) :
  forall q, In q (keys (store p conn conns)) <-> q = p \/ In q (keys conns).
Proof.
  intros q. induction conns as [| [k c0] rest IH]; cbn [store].
  - cbn. intuition.
  - destruct (Z.eqb_spec k p) as [-> | Hkp]; cbn [keys map fst In].
    + intuition.
    + fold (keys (store p conn rest)). fold (keys rest).
      rewrite IH. intuition.
Qed.

Lemma lookup_store_same (p : Z) (conn : ArchicadConnection)
      (conns : Connections) :
  lookup p (store p conn conns) = Some conn.
Proof.
  induction conns as [| [k c0] rest IH]; cbn [store lookup].
  - now rewrite Z.eqb_refl.
  - destruct (Z.eqb_spec k p) as [-> | Hkp]; cbn [lookup].
    + now rewrite Z.eqb_refl.
    + destruct (Z.eqb_spec k p); [contradiction | exact IH].
Qed.

Lemma lookup_store_other (p q : Z) (conn : ArchicadConnection)
      (conns : Connections) :
  q <> p -> lookup q (store p conn conns) = lookup q conns.
Proof.
  intros Hne. induction conns as [| [k c0] rest IH]; cbn [store lookup].
  - destruct (Z.eqb_spec p q); [congruence | reflexivity].
  - destruct (Z.eqb_spec k p) as [-> | Hkp]; cbn [lookup].
    + destruct (Z.eqb_spec p q); [congruence | reflexivity].
    + now rewrite IH.
Qed.

Lemma well_keyed_store (p : Z) (conn : ArchicadConnection)
      (conns : Connections) :
  port conn = p -> well_keyed conns -> well_keyed (store p conn conns).
Proof.
  unfold well_keyed. intros <-.
  induction conns as [| [k c0] rest IH].
  - intros _. cbn. split.
    + constructor; [intros [] | constructor].
    + intros k c [Heq | []]. injection Heq as <- <-. reflexivity.
  - cbn [keys map fst]. intros [Hnd Hport].
    inversion Hnd as [| k' ks Hnotin Hrest]. subst k' ks.
    cbn [store]. destruct (Z.eqb_spec k (port conn)) as [Hk | Hk].
    + split.
      * cbn [keys map fst]. exact Hnd.
      * intros k1 c1 [Heq | Hin].
        -- injection Heq as <- <-. symmetry. exact Hk.
        -- apply Hport. now right.
    + destruct IH as [Hnd' Hport'].
      { split; [exact Hrest |]. intros k1 c1 H. apply Hport. now right. }
      split.
      * cbn [keys map fst]. fold (keys (store (port conn) conn rest)).
        constructor; [| exact Hnd'].
        intros Hin. apply keys_store in Hin.
        destruct Hin as [Heq | Hin]; [congruence | contradiction].
      * intros k1 c1 [Heq | Hin].
        -- apply Hport. left. exact Heq.
        -- now apply Hport'.
Qed.

Lemma new_connection_port (t : Transport) (p : Z)
      (info : list (string * Json)) :
  port (new_connection t p info) = p.
Proof. reflexivity. Qed.

(** What a probe does to the connections. *)
Lemma probe_port_effect (t : Transport) (conns : Connections) (p : Z) :
  fst (_probe_port t conns p) = conns
  \/ fst (_probe_port t conns p) = pop p conns
  \/ exists info,
      fst (_probe_port t conns p) = store p (new_connection t p info) conns.
Proof.
  unfold _probe_port.
  destruct (probe t (instance_url p) product_info_payload)
    as [| e | status data]; cbn [fst]; auto.
  destruct (negb (status =? 200)); cbn [fst]; auto.
  destruct data as [| b | n | x | s | items | d]; cbn [fst]; auto.
  destruct (json_truthy (dict_get d "succeeded" JNull)); cbn [fst]; auto.
  destruct (dict_get d "result" (JDict [])); cbn [fst]; auto.
  destruct (_get_full_info t p entries) as [e | info]; cbn [fst]; auto.
  right. right. exists info. reflexivity.
Qed.

Lemma probe_port_well_keyed (t : Transport) (conns : Connections) (p : Z) :
  well_keyed conns -> well_keyed (fst (_probe_port t conns p)).
Proof.
  intros Hwk.
  destruct (probe_port_effect t conns p) as [-> | [-> | [info ->]]].
  - exact Hwk.
  - now apply well_keyed_pop.
  - apply well_keyed_store; [apply new_connection_port | exact Hwk].
Qed.

Lemma probe_port_frame (t : Transport) (conns : Connections) (p q : Z) :
  q <> p -> lookup q (fst (_probe_port t conns p)) = lookup q conns.
Proof.
  intros Hne.
  destruct (probe_port_effect t conns p) as [-> | [-> | [info ->]]].
  - reflexivity.
  - now apply lookup_pop_other.
  - now apply lookup_store_other.
Qed.

(** X25. A probe keeps the connections keyed by their own ports, leaves
    every other port as it was, and forgets the probed port when the
    instance is unreachable or answers with a status other than 200. *)
Theorem probe_port_updates_one_port
        (t : Transport) (conns : Connections) (p : Z) :
  well_keyed conns ->
  well_keyed (fst (_probe_port t conns p))
  /\ (forall q, q <> p ->
                lookup q (fst (_probe_port t conns p)) = lookup q conns)
  /\ (probe t (instance_url p) product_info_payload = Unreachable
      \/ (exists status data,
             probe t (instance_url p) product_info_payload
             = Answered status data
             /\ status <> 200) ->
      lookup p (fst (_probe_port t conns p)) = None).
Proof.
  intros Hwk. split; [now apply probe_port_well_keyed |].
  split; [intros q Hq; now apply probe_port_frame |].
  destruct Hwk as [Hnd _].
  intros [Hprobe | [status [data [Hprobe Hstatus]]]];
    unfold _probe_port; rewrite Hprobe.
  - cbn [fst]. now apply lookup_pop_same.
  - destruct (Z.eqb_spec status 200); [contradiction |].
    cbn [negb fst]. now apply lookup_pop_same.
Qed.

Lemma probe_port_updates_one_port_witness :
  lookup 19723
         (fst (_probe_port
                 (constant_transport (ClientError "refused") Unreachable)
                 [(19723, fresh_connection 19723);
                  (19724, fresh_connection 19724)]
                 19723))
  = None.
Proof.
  apply (probe_port_updates_one_port
           (constant_transport (ClientError "refused") Unreachable)
           [(19723, fresh_connection 19723); (19724, fresh_connection 19724)]
           19723).
  - split.
    + repeat constructor; simpl; intuition discriminate.
    + intros k c [H | [H | []]]; injection H as <- <-; reflexivity.
  - left. reflexivity.
Defined.

(** X26. On connections keyed by their ports, [get] returns the
    connection stored under the port, whose own port it is, or raises an
    [ArchicadConnectionError] that lists the active ports when there is
    none; it raises nothing else. *)
Theorem get_returns_the_port
        (conns : Connections) (p : Z) :
  well_keyed conns ->
  (forall c, get conns p = Ok c -> port c = p /\ In (p, c) conns)
  /\ (forall e,
         get conns p = Raises e ->
         ~ In p (keys conns)
         /\ error_class e = ArchicadConnectionError
         /\ dict_find "active_ports" (details e)
            = Some (JList (map JInt (keys conns))))
  /\ (forall e, get conns p <> Escapes e).
Proof.
  intros [_ Hport]. unfold get.
  destruct (lookup p conns) as [c0 |] eqn:Hlookup.
  - split; [| split]; try discriminate.
    intros c H. injection H as <-.
    apply lookup_In in Hlookup. split; [now apply Hport | exact Hlookup].
  - split; [| split]; try discriminate.
    intros e H. injection H as <-.
    split; [now apply lookup_None | split; reflexivity].
Qed.

Lemma get_returns_the_port_witness :
  get [(19723, fresh_connection 19723)] 19723 = Ok (fresh_connection 19723)
  /\ port (fresh_connection 19723) = 19723.
Proof.
  split; [reflexivity |].
  destruct (get_returns_the_port [(19723, fresh_connection 19723)] 19723)
    as [Hok _].
  - split.
    + repeat constructor. simpl. tauto.
    + intros k c [H | []]. injection H as <- <-. reflexivity.
  - apply (Hok (fresh_connection 19723)). reflexivity.
Defined.

(** X27. [execute_script] on a port without a connection raises the error
    of [get] whatever the script is, and nothing is compiled or run; on a
    port with a connection it is [run] with that port in the namespace,
    and nothing else of the connection matters. *)
Theorem execute_script_needs_an_instance
        (h : Config.Host) (py : Executor.Interpreter)
        (conns : Connections) (cfg : Config.SecurityConfig) (p : Z)
        (script : string) (timeout_seconds : option Z) :
  well_keyed conns ->
  (lookup p conns = None ->
   exists e,
     error_class e = ArchicadConnectionError
     /\ forall py' script' timeout',
         execute_script h py' conns cfg p script' timeout' = NoInstance e)
  /\ (forall c,
         lookup p conns = Some c ->
         execute_script h py conns cfg p script timeout_seconds
         = Ran (Executor.run h py script {| Executor.port := p |}
                             timeout_seconds (Some cfg))).
Proof.
  intros [_ Hport]. unfold execute_script, get. split.
  - intros Hnone. rewrite Hnone. eexists.
    split; [| intros py' script' timeout'; reflexivity]. reflexivity.
  - intros c Hsome. rewrite Hsome. unfold handle.
    apply lookup_In in Hsome. now rewrite (Hport p c Hsome).
Qed.

Lemma execute_script_needs_an_instance_witness :
  exists e,
    execute_script Config.linux_host Samples.python
                   [(19723, fresh_connection 19723)]
                   (Config.default_config Config.linux_host)
                   19730 Samples.script_answer None
    = NoInstance e
    /\ error_class e = ArchicadConnectionError.
Proof.
  destruct (execute_script_needs_an_instance
              Config.linux_host Samples.python
              [(19723, fresh_connection 19723)]
              (Config.default_config Config.linux_host)
              19730 Samples.script_answer None)
    as [Hnone _].
  - split.
    + repeat constructor. simpl. tauto.
    + intros k c [H | []]. injection H as <- <-. reflexivity.
  - destruct (Hnone eq_refl) as [e [Hclass Hall]].
    exists e. split; [apply Hall | exact Hclass].
Defined.

(** X28. [get_instances] reports one instance per connection, in the
    order of the dictionary, under the port it is stored at; the project
    type is [teamwork] exactly for teamwork projects and otherwise
    [untitled] or [solo]. *)
Theorem instances_mirror_connections
        (t : Transport) (conns : Connections) :
  well_keyed conns ->
  map inst_port (get_instances t conns) = keys conns
  /\ forall c, In c (map snd conns) ->
       (inst_project_type (instance_of t c) = "teamwork"
        <-> is_teamwork c = true)
       /\ (inst_project_type (instance_of t c) = "teamwork"
           \/ inst_project_type (instance_of t c) = "untitled"
           \/ inst_project_type (instance_of t c) = "solo").
Proof.
  intros [_ Hport]. split.
  - unfold get_instances, keys. rewrite map_map.
    apply map_ext_in. intros [k c] Hin. cbn [snd fst instance_of inst_port].
    now apply Hport.
  - intros c _. unfold instance_of. cbn [inst_project_type].
    destruct (is_teamwork c).
    + split; [split; reflexivity | left; reflexivity].
    + destruct (String.eqb (project_name c) "Unknown"
                || String.eqb (project_name c) "Untitled")%bool.
      * split; [split; discriminate | right; left; reflexivity].
      * split; [split; discriminate | right; right; reflexivity].
Qed.

Lemma instances_mirror_connections_witness :
  map inst_port
      (get_instances
         (constant_transport (ClientError "refused") Unreachable)
         [(19724, fresh_connection 19724); (19723, fresh_connection 19723)])
  = [19724; 19723].
Proof.
  apply (instances_mirror_connections
           (constant_transport (ClientError "refused") Unreachable)
           [(19724, fresh_connection 19724); (19723, fresh_connection 19723)]).
  split.
  - repeat constructor; simpl; intuition discriminate.
  - intros k c [H | [H | []]]; injection H as <- <-; reflexivity.
Defined.

Lemma port_range_bounds (p : Z) :
  In p PORT_RANGE <-> 19723 <= p <= 19743.
Proof.
  unfold PORT_RANGE. rewrite in_map_iff. split.
  - intros [i [<- Hi]]. apply in_seq in Hi. lia.
  - intros Hp. exists (Z.to_nat (p - 19723)). split; [lia |].
    apply in_seq. lia.
Qed.

Lemma scan_over (t : Transport) (ports : list Z) (conns : Connections) :
  well_keyed conns ->
  well_keyed (fold_left (fun acc p => fst (_probe_port t acc p)) ports conns)
  /\ forall q, ~ In q ports ->
       lookup q (fold_left (fun acc p => fst (_probe_port t acc p))
                           ports conns)
       = lookup q conns.
Proof.
  revert conns. induction ports as [| p ports IH]; intros conns Hwk.
  - split; [exact Hwk | reflexivity].
  - cbn [fold_left].
    destruct (IH (fst (_probe_port t conns p))
                 (probe_port_well_keyed t conns p Hwk)) as [Hwk' Hframe].
    split; [exact Hwk' |].
    intros q Hq. rewrite Hframe by (intros H; apply Hq; now right).
    apply probe_port_frame. intros ->. apply Hq. now left.
Qed.

(** X29. A scan probes the ports 19723 to 19743 and no other: it keeps
    the connections keyed by their ports, and what is stored under a port
    outside that range, 19744 included, is what was stored before. *)
Theorem scan_stays_in_port_range
        (t : Transport) (conns : Connections) :
  well_keyed conns ->
  well_keyed (scan_and_connect t conns)
  /\ (forall p, In p PORT_RANGE <-> 19723 <= p <= 19743)
  /\ (forall q, q < 19723 \/ 19743 < q ->
                lookup q (scan_and_connect t conns) = lookup q conns).
Proof.
  intros Hwk. unfold scan_and_connect.
  destruct (scan_over t PORT_RANGE conns Hwk) as [Hwk' Hframe].
  split; [exact Hwk' |]. split; [apply port_range_bounds |].
  intros q Hq. apply Hframe. rewrite port_range_bounds. lia.
Qed.

Lemma scan_stays_in_port_range_witness :
  lookup 19744
         (scan_and_connect
            (constant_transport (ClientError "refused") Unreachable)
            [(19744, fresh_connection 19744)])
  = Some (fresh_connection 19744).
Proof.
  apply (scan_stays_in_port_range
           (constant_transport (ClientError "refused") Unreachable)
           [(19744, fresh_connection 19744)]).
  - split.
    + repeat constructor. simpl. tauto.
    + intros k c [H | []]. injection H as <- <-. reflexivity.
  - right. lia.
Defined.

End ManagerFacts.
